(** * TextBox: the abstract generators and the T5 sequence-to-sequence model

    A shallow embedding of [textbox/model/abstract_generator.py] and
    [textbox/model/Seq2Seq/t5.py].

    The two Python files are glue around [torch] and [transformers].  The
    wrapped calls (the tokenizer, the pretrained encoder-decoder, the
    per-token negative log-likelihood, float arithmetic) are the fields of
    interface records, and so is the case data of the Unicode database
    that [str.lower] reads; every definition below is parametric in them,
    and the executable instances are only used to run the code on concrete
    inputs. *)

From Stdlib Require Import String Ascii ZArith QArith Bool Arith Lia List.
Import ListNotations.
Close Scope Q_scope.
Open Scope string_scope.
Open Scope list_scope.

Set Implicit Arguments.

(* ===================================================================== *)
(** ** Python values, exceptions and built-ins                            *)
(* ===================================================================== *)

Module Py.

(** The values that travel through a configuration. *)
Inductive pyval : Type :=
| PyNone
| PyBool (b : bool)
| PyInt (z : Z)
| PyStr (s : string).

Definition pyval_eqb (a b : pyval) : bool :=
  match a, b with
  | PyNone, PyNone => true
  | PyBool x, PyBool y => Bool.eqb x y
  | PyInt x, PyInt y => Z.eqb x y
  | PyStr x, PyStr y => String.eqb x y
  | _, _ => false
  end.

(** The only exception these two files raise themselves. *)
Inductive exn : Type :=
| NotImplementedError (msg : option string).

Inductive result (A : Type) : Type :=
| Ok (a : A)
| Raise (e : exn).
Arguments Ok {A} a.
Arguments Raise {A} e.

Definition bind {A B : Type} (c : result A) (k : A -> result B) : result B :=
  match c with
  | Ok a => k a
  | Raise e => Raise e
  end.

(** [config[key]]: the configuration class is outside these sources; a
    configuration is represented by its [__getitem__]. *)
Definition Config : Type := string -> pyval.

(** *** [str] built-ins.  A Python [str] is modelled by the [string] of
    the bytes of its UTF-8 encoding, which is also what a string literal
    denotes here.  A byte from 128 to 191 continues a character; any other
    byte starts one. *)

Definition in_range (lo hi n : nat) : bool := (lo <=? n)%nat && (n <=? hi)%nat.

Definition is_continuation (b : ascii) : bool :=
  in_range 128 191 (nat_of_ascii b).

(** The characters of a string, each as the string of its bytes;
    [current] is the character being read. *)
Fixpoint characters_from (current : string) (s : string) : list string :=
  match s with
  | EmptyString =>
      match current with
      | EmptyString => []
      | _ => [current]
      end
  | String b s' =>
      if is_continuation b then
        characters_from (current ++ String b EmptyString) s'
      else
        match current with
        | EmptyString => characters_from (String b EmptyString) s'
        | _ => current :: characters_from (String b EmptyString) s'
        end
  end.

Definition characters (s : string) : list string :=
  characters_from EmptyString s.

(** The bytes of a string, and the string of given bytes. *)
Fixpoint bytes (s : string) : list ascii :=
  match s with
  | EmptyString => []
  | String b s' => b :: bytes s'
  end.

Fixpoint of_bytes (codes : list nat) : string :=
  match codes with
  | [] => EmptyString
  | n :: codes' => String (ascii_of_nat n) (of_bytes codes')
  end.

(** The characters [str.isspace] holds of: U+0009 to U+000D, U+001C to
    U+0020, U+0085, U+00A0, U+1680, U+2000 to U+200A, U+2028, U+2029,
    U+202F, U+205F and U+3000, in UTF-8. *)
Definition whitespace : list string :=
  map of_bytes
    [[9]; [10]; [11]; [12]; [13]; [28]; [29]; [30]; [31]; [32];
     [194; 133]; [194; 160]; [225; 154; 128];
     [226; 128; 128]; [226; 128; 129]; [226; 128; 130]; [226; 128; 131];
     [226; 128; 132]; [226; 128; 133]; [226; 128; 134]; [226; 128; 135];
     [226; 128; 136]; [226; 128; 137]; [226; 128; 138];
     [226; 128; 168]; [226; 128; 169]; [226; 128; 175];
     [226; 129; 159]; [227; 128; 128]].

(** [c.isspace()] for one character. *)
Definition isspace (c : string) : bool := existsb (String.eqb c) whitespace.

(** [s.split()] with no separator: maximal runs of non-whitespace
    characters, scanned left to right; [word] is the run being read. *)
Fixpoint split_from (word : string) (cs : list string) : list string :=
  match cs with
  | [] =>
      match word with
      | EmptyString => []
      | _ => [word]
      end
  | c :: cs' =>
      if isspace c then
        match word with
        | EmptyString => split_from EmptyString cs'
        | _ => word :: split_from EmptyString cs'
        end
      else split_from (word ++ c) cs'
  end.

Definition split (s : string) : list string :=
  split_from EmptyString (characters s).

(** [sep.join(words)] *)
Definition join (sep : string) (words : list string) : string :=
  String.concat sep words.

(** The case data of the Unicode database is outside these sources:
    [lower s] is [s.lower()] and [uppercase c] tells whether the character
    [c] is an uppercase letter.  Lowercasing changes no whitespace and does
    not look across it, so it can be done before or after splitting. *)
Class Unicode : Type := {
  lower : string -> string;
  uppercase : string -> bool;
  lower_split : forall s, split (lower s) = map lower (split s)
}.

(** *** Slicing with step 1.  A bound that is absent takes its default; a
    negative bound counts from the end and is clipped at 0; a non-negative
    one is clipped at the length. *)
Definition slice_bound (len : Z) (b : option Z) (default : Z) : Z :=
  match b with
  | None => default
  | Some i => if (i <? 0)%Z then Z.max (i + len) 0 else Z.min i len
  end.

(** [l[start:stop]] *)
Definition slice {A : Type} (start stop : option Z) (l : list A) : list A :=
  let len := Z.of_nat (length l) in
  let lo := slice_bound len start 0 in
  let hi := slice_bound len stop len in
  firstn (Z.to_nat (hi - lo)) (skipn (Z.to_nat lo) l).

End Py.
Import Py.

Notation "x <- c ;; k" := (bind c (fun x => k))
  (at level 61, c at next level, right associativity).

(* ===================================================================== *)
(** ** The part of [torch] the model calls                                *)
(* ===================================================================== *)

Module Torch.

(** Float tensors are kept abstract: [F] is the element type, [of_nat] is
    [.float()] on an integer count and [nll x t] is the negative
    log-likelihood of class [t] under the logits [x] (one row of
    [CrossEntropyLoss]).  No law is assumed about them. *)
Record TorchFloat : Type := {
  F : Type;
  fzero : F;
  fadd : F -> F -> F;
  fdiv : F -> F -> F;
  of_nat : nat -> F;
  nll : list F -> Z -> F
}.

(** A tensor is the nested list of its entries, outermost dimension first. *)
Definition tensor1 (A : Type) : Type := list A.
Definition tensor2 (A : Type) : Type := list (list A).
Definition tensor3 (A : Type) : Type := list (list (list A)).

Fixpoint zip_with {A B C : Type} (f : A -> B -> C) (l : list A) (r : list B)
  : list C :=
  match l, r with
  | a :: l', b :: r' => f a b :: zip_with f l' r'
  | _, _ => []
  end.

(** [torch.cat(ts)] along dimension 0. *)
Definition cat {A : Type} (ts : list (list A)) : list A := concat ts.

(** [t.to(device)] and [t.contiguous()]: the entries stay as they are. *)
Definition to {A : Type} (t : A) (device : option pyval) : A := t.

(** [t.view(-1)] on a 2-D tensor and [t.view(-1, t.size(-1))] on a 3-D one:
    the two leading dimensions are merged, row-major. *)
Definition view_flat {A : Type} (t : list (list A)) : list A := concat t.

(** [t.size()] of a 2-D tensor. *)
Definition size2 {A : Type} (t : tensor2 A) : nat * nat :=
  (length t, match t with [] => 0%nat | row :: _ => length row end).

(** A flat tensor cut into [rows] rows of [cols] entries. *)
Fixpoint chunks {A : Type} (rows cols : nat) (flat : list A) : tensor2 A :=
  match rows with
  | O => []
  | S rows' => firstn cols flat :: chunks rows' cols (skipn cols flat)
  end.

(** [flat.reshape_as(other)] *)
Definition reshape_as {A B : Type} (flat : tensor1 A) (other : tensor2 B)
  : tensor2 A :=
  let '(rows, cols) := size2 other in chunks rows cols flat.

(** [t[:, start:stop]] *)
Definition slice_cols {A : Type} (start stop : option Z) (t : tensor2 A)
  : tensor2 A :=
  map (slice start stop) t.

(** [t[k, i]], where both indices are in range. *)
Definition entry {A : Type} (t : tensor2 A) (k i : nat) : option A :=
  match nth_error t k with
  | Some row => nth_error row i
  | None => None
  end.

(** [t != v] *)
Definition ne (t : tensor2 Z) (v : Z) : tensor2 bool :=
  map (map (fun x => negb (x =? v)%Z)) t.

(** [mask.sum(dim=1)] on a boolean tensor: the number of [True] per row. *)
Definition sum_dim1_bool (mask : tensor2 bool) : tensor1 nat :=
  map (fun row => length (filter (fun b => b) row)) mask.

(** Whether [t] has shape [rows x cols]. *)
Definition has_shape {A : Type} (rows cols : nat) (t : tensor2 A) : bool :=
  (length t =? rows)%nat && forallb (fun row => (length row =? cols)%nat) t.

(** [nn.CrossEntropyLoss(ignore_index=..., reduction=...)] *)
Record CrossEntropyLoss : Type := {
  ignore_index : Z;
  reduction : string
}.

Section Float.
Variable fl : TorchFloat.

(** [t.sum()] of a 1-D tensor. *)
Definition fsum (t : tensor1 (F fl)) : F fl := fold_left (fadd fl) t (fzero fl).

(** [t.sum(dim=1)] *)
Definition sum_dim1 (t : tensor2 (F fl)) : tensor1 (F fl) := map fsum t.

(** [counts.float()] *)
Definition float (counts : tensor1 nat) : tensor1 (F fl) := map (of_nat fl) counts.

(** [a / b] on 1-D tensors of one size. *)
Definition div (a b : tensor1 (F fl)) : tensor1 (F fl) := zip_with (fdiv fl) a b.

(** [t.mean()] *)
Definition mean (t : tensor1 (F fl)) : F fl :=
  fdiv fl (fsum t) (of_nat fl (length t)).

(** The loss of one position: zero where the target is [ignore_index]. *)
Definition token_loss (crit : CrossEntropyLoss) (x : list (F fl)) (t : Z) : F fl :=
  if (t =? ignore_index crit)%Z then fzero fl else nll fl x t.

(** [crit(input, target)] with [reduction='none']: one loss per row of
    [input]. *)
Definition cross_entropy (crit : CrossEntropyLoss)
  (input : tensor2 (F fl)) (target : tensor1 Z) : tensor1 (F fl) :=
  zip_with (token_loss crit) input target.

End Float.
End Torch.
Import Torch.

(* ===================================================================== *)
(** ** The part of [transformers] the model calls                         *)
(* ===================================================================== *)

Module Transformers.

(** The tokenizer is called on one string or on a list of strings. *)
Inductive text_input : Type :=
| Single (s : string)
| Batch (ss : list string).

(** The keyword arguments of a tokenizer call. *)
Record kwargs : Type := {
  return_tensors : string;
  max_length : pyval;
  padding : string;
  truncation : bool
}.

Record BatchEncoding : Type := {
  input_ids : tensor2 Z;
  attention_mask : tensor2 Z
}.

Record T5Tokenizer : Type := {
  call : text_input -> kwargs -> BatchEncoding;
  (** [batch_decode(sequences, skip_special_tokens=...)] *)
  batch_decode : tensor2 Z -> bool -> list string;
  pad_token_id : Z
}.

Section Float.
Variable fl : TorchFloat.

Record Seq2SeqLMOutput : Type := {
  logits : tensor3 (F fl)
}.

Record T5ForConditionalGeneration : Type := {
  (** [model(input_ids=, attention_mask=, decoder_input_ids=, use_cache=)] *)
  model_call : tensor2 Z -> tensor2 Z -> tensor2 Z -> bool -> Seq2SeqLMOutput;
  (** [model.generate(input_ids, max_length=, early_stopping=)] *)
  model_generate : tensor2 Z -> pyval -> bool -> tensor2 Z
}.

(** The three [from_pretrained] loaders. *)
Record Pretrained : Type := {
  T5Config : Type;
  (** [T5Tokenizer.from_pretrained(path, add_prefix_space=...)] *)
  T5Tokenizer_from_pretrained : pyval -> bool -> T5Tokenizer;
  T5Config_from_pretrained : pyval -> T5Config;
  (** [T5ForConditionalGeneration.from_pretrained(path, config=...)] *)
  T5ForConditionalGeneration_from_pretrained :
    pyval -> T5Config -> T5ForConditionalGeneration
}.

End Float.
End Transformers.
Import Transformers.

(* ===================================================================== *)
(** ** [textbox/model/abstract_generator.py]                              *)
(* ===================================================================== *)

(** The dataset classes are outside these sources.  A dataset is taken as
    the attributes the constructors read, with [hasattr(dataset,
    "source_idx2token")] as a flag; each vocabulary is the list of its
    tokens. *)
Record Dataset : Type := {
  hasattr_source_idx2token : bool;
  source_idx2token : list string;
  target_idx2token : list string;
  idx2token : list string
}.

(** A batch as the data loaders hand it over: each text is a list of
    words. *)
Record Corpus : Type := {
  source_text : list (list string);
  target_text : list (list string)
}.

Module AbstractModel.

(** The three methods take the model and a batch; their result type is
    left open since none of them returns. *)
Definition calculate_loss {Self Arg T : Type} (self : Self) (corpus : Arg)
  : result T :=
  Raise (NotImplementedError None).

Definition generate {Self Arg T : Type} (self : Self) (corpus : Arg)
  : result T :=
  Raise (NotImplementedError None).

Definition calculate_nll_test {Self Arg T : Type} (self : Self) (eval_data : Arg)
  : result T :=
  Raise (NotImplementedError None).

End AbstractModel.

Module UnconditionalGenerator.

(** The attributes of an instance. *)
Record t : Type := {
  vocab_size : nat;
  batch_size : pyval;
  device : pyval
}.

(** [nn.Module.__init__()] runs first; it sets none of these attributes. *)
Definition __init__ (config : Config) (dataset : Dataset) : t :=
  let vocab_size := length (idx2token dataset) in
  let batch_size := config "train_batch_size" in
  let device := config "device" in
  {| vocab_size := vocab_size; batch_size := batch_size; device := device |}.

End UnconditionalGenerator.

Module Seq2SeqGenerator.

(** The attributes of an instance, [None] while unset: the constructor sets
    the vocabulary sizes on one branch or the other. *)
Record t : Type := {
  source_vocab_size : option nat;
  target_vocab_size : option nat;
  vocab_size : option nat;
  batch_size : option pyval;
  device : option pyval
}.

(** The instance before the constructor body runs. *)
Definition fresh : t :=
  {| source_vocab_size := None; target_vocab_size := None; vocab_size := None;
     batch_size := None; device := None |}.

(** [self.source_vocab_size = n] and the other four assignments. *)
Definition set_source_vocab_size (n : nat) (self : t) : t :=
  {| source_vocab_size := Some n; target_vocab_size := target_vocab_size self;
     vocab_size := vocab_size self; batch_size := batch_size self;
     device := device self |}.

Definition set_target_vocab_size (n : nat) (self : t) : t :=
  {| source_vocab_size := source_vocab_size self; target_vocab_size := Some n;
     vocab_size := vocab_size self; batch_size := batch_size self;
     device := device self |}.

Definition set_vocab_size (n : nat) (self : t) : t :=
  {| source_vocab_size := source_vocab_size self;
     target_vocab_size := target_vocab_size self;
     vocab_size := Some n; batch_size := batch_size self;
     device := device self |}.

Definition set_batch_size (v : pyval) (self : t) : t :=
  {| source_vocab_size := source_vocab_size self;
     target_vocab_size := target_vocab_size self;
     vocab_size := vocab_size self; batch_size := Some v;
     device := device self |}.

Definition set_device (v : pyval) (self : t) : t :=
  {| source_vocab_size := source_vocab_size self;
     target_vocab_size := target_vocab_size self;
     vocab_size := vocab_size self; batch_size := batch_size self;
     device := Some v |}.

(** [nn.Module.__init__()] runs first; it sets none of these attributes. *)
Definition __init__ (config : Config) (dataset : Dataset) : t :=
  let self := fresh in
  let self :=
    if hasattr_source_idx2token dataset then
      let self := set_source_vocab_size (length (source_idx2token dataset)) self in
      set_target_vocab_size (length (target_idx2token dataset)) self
    else
      set_vocab_size (length (idx2token dataset)) self in
  let self := set_batch_size (config "train_batch_size") self in
  set_device (config "device") self.

End Seq2SeqGenerator.

Module GenerativeAdversarialNet.

Definition t : Type := UnconditionalGenerator.t.

Definition __init__ (config : Config) (dataset : Dataset) : t :=
  UnconditionalGenerator.__init__ config dataset.

Definition calculate_g_train_loss {Arg T : Type} (self : t) (corpus : Arg)
  : result T :=
  Raise (NotImplementedError None).

Definition calculate_d_train_loss {Arg T : Type} (self : t)
  (real_data fake_data : Arg) : result T :=
  Raise (NotImplementedError None).

Definition calculate_g_adversarial_loss {T : Type} (self : t) : result T :=
  Raise (NotImplementedError None).

Definition sample {Arg T : Type} (self : t) (sample_num : Arg) : result T :=
  Raise (NotImplementedError None).

End GenerativeAdversarialNet.

(* ===================================================================== *)
(** ** [textbox/model/Seq2Seq/t5.py]                                      *)
(* ===================================================================== *)

Module T5.
Section Model.

Variable fl : TorchFloat.
Variable hub : Pretrained fl.
Context {unicode : Unicode}.

(** The attributes of an instance, the inherited ones in [base]. *)
Record t : Type := {
  base : Seq2SeqGenerator.t;
  max_source_length : pyval;
  max_target_length : pyval;
  pretrained_model_path : pyval;
  tokenizer : T5Tokenizer;
  configuration : T5Config hub;
  decoder : T5ForConditionalGeneration fl;
  padding_token_idx : Z;
  loss : CrossEntropyLoss;
  t5_task_text : string
}.

Definition __init__ (config : Config) (dataset : Dataset) : result t :=
  let base := Seq2SeqGenerator.__init__ config dataset in
  let max_source_length := config "source_max_seq_length" in
  let max_target_length := config "target_max_seq_length" in
  let pretrained_model_path := config "pretrained_model_path" in
  let tokenizer := T5Tokenizer_from_pretrained hub pretrained_model_path true in
  let configuration := T5Config_from_pretrained hub pretrained_model_path in
  let decoder :=
    T5ForConditionalGeneration_from_pretrained hub pretrained_model_path
      configuration in
  let padding_token_idx := pad_token_id tokenizer in
  let loss := {| ignore_index := padding_token_idx; reduction := "none" |} in
  t5_task_text <-
    (if pyval_eqb (config "task_type") (PyStr "summarization") then
       Ok "summarize: "
     else if pyval_eqb (config "task_type") (PyStr "translation") then
       Ok "translate German to English: "
     else
       Raise (NotImplementedError
                (Some "Only summarization and translation are supported."))) ;;
  Ok {| base := base;
        max_source_length := max_source_length;
        max_target_length := max_target_length;
        pretrained_model_path := pretrained_model_path;
        tokenizer := tokenizer;
        configuration := configuration;
        decoder := decoder;
        padding_token_idx := padding_token_idx;
        loss := loss;
        t5_task_text := t5_task_text |}.

(** [self.device], set by the base constructor. *)
Definition device (self : t) : option pyval :=
  Seq2SeqGenerator.device (base self).

(** The keyword arguments both tokenizer calls pass. *)
Definition tokenizer_kwargs (self : t) : kwargs :=
  {| return_tensors := "pt";
     max_length := max_source_length self;
     padding := "max_length";
     truncation := true |}.

(** *** [generate], one batch at a time *)

(** [[(self.t5_task_text + ' '.join(text)) for text in source_text]] *)
Definition batch_sequences (self : t) (source_text : list (list string))
  : list string :=
  map (fun text => (t5_task_text self ++ join " " text)%string) source_text.

(** The tokenizer call of [generate]: what is tokenized, and how. *)
Definition generate_tokenizer_call (self : t) (source_text : list (list string))
  : text_input * kwargs :=
  (Batch (batch_sequences self source_text), tokenizer_kwargs self).

Definition batch_encoded_sequence (self : t) (source_text : list (list string))
  : tensor2 Z :=
  let '(input, kw) := generate_tokenizer_call self source_text in
  let batch_inputs := to (call (tokenizer self) input kw) (device self) in
  to (input_ids batch_inputs) (device self).

Definition batch_decoded_sequence (self : t) (batch_data : Corpus) : list string :=
  let source_text := source_text batch_data in
  let batch_outputs :=
    model_generate (decoder self) (batch_encoded_sequence self source_text)
      (max_target_length self) true in
  batch_decode (tokenizer self) batch_outputs true.

(** [[text.lower().split() for text in batch_decoded_sequence]] *)
Definition batch_decoded_text (self : t) (batch_data : Corpus)
  : list (list string) :=
  map (fun text => split (lower text)) (batch_decoded_sequence self batch_data).

(** The loop over the data loader; [generate_corpus.extend] appends. *)
Definition generate (self : t) (eval_dataloader : list Corpus)
  : list (list string) :=
  fold_left
    (fun generate_corpus batch_data =>
       generate_corpus ++ batch_decoded_text self batch_data)
    eval_dataloader [].

(** *** [calculate_ids] *)

(** [sequence = self.t5_task_text + ' '.join(text)] *)
Definition sequence (self : t) (text : list string) : string :=
  (t5_task_text self ++ join " " text)%string.

(** The tokenizer call of [calculate_ids] for one text. *)
Definition calculate_ids_tokenizer_call (self : t) (text : list string)
  : text_input * kwargs :=
  (Single (sequence self text), tokenizer_kwargs self).

(** The two lists grow by one [1 x max_length] tensor per text and are
    concatenated at the end. *)
Definition calculate_ids (self : t) (source_text : list (list string))
  : tensor2 Z * tensor2 Z :=
  let '(input_ids_list, attention_masks_list) :=
    fold_left
      (fun '(ids, masks) text =>
         let '(input, kw) := calculate_ids_tokenizer_call self text in
         let inputs := call (tokenizer self) input kw in
         (ids ++ [input_ids inputs], masks ++ [attention_mask inputs]))
      source_text ([], []) in
  (to (cat input_ids_list) (device self),
   to (cat attention_masks_list) (device self)).

(** *** [forward] *)

(** [target_ids[:, :-1]] *)
Definition decoder_input_ids (target_ids : tensor2 Z) : tensor2 Z :=
  slice_cols None (Some (-1)%Z) target_ids.

(** [target_ids[:, 1:]] *)
Definition decoder_target_ids (target_ids : tensor2 Z) : tensor2 Z :=
  slice_cols (Some 1%Z) None target_ids.

(** [(decoder_target_ids != self.padding_token_idx).sum(dim=1)], before
    the cast to float. *)
Definition target_length (self : t) (decoder_target_ids : tensor2 Z)
  : tensor1 nat :=
  sum_dim1_bool (ne decoder_target_ids (padding_token_idx self)).

Definition forward (self : t) (corpus : Corpus) : F fl :=
  let source_text := source_text corpus in
  let target_text := target_text corpus in
  let '(input_ids, attention_masks) := calculate_ids self source_text in
  let '(target_ids, decoder_attention_masks) := calculate_ids self target_text in
  let decoder_input_ids := to (decoder_input_ids target_ids) (device self) in
  let decoder_attention_masks :=
    to (slice_cols None (Some (-1)%Z) decoder_attention_masks) (device self) in
  let decoder_target_ids := to (decoder_target_ids target_ids) (device self) in
  let outputs :=
    model_call (decoder self) input_ids attention_masks decoder_input_ids
      false in
  let token_logits := logits outputs in
  let loss :=
    cross_entropy fl (loss self) (view_flat token_logits)
      (view_flat decoder_target_ids) in
  let loss := reshape_as loss decoder_target_ids in
  let length := float fl (target_length self decoder_target_ids) in
  let loss := div fl (sum_dim1 fl loss) length in
  mean fl loss.

(** Two locals of [forward], named for the statements below: the tokenized
    targets and the logits the decoder returns. *)
Definition target_ids (self : t) (corpus : Corpus) : tensor2 Z :=
  fst (calculate_ids self (target_text corpus)).

Definition token_logits (self : t) (corpus : Corpus) : tensor3 (F fl) :=
  let '(input_ids, attention_masks) := calculate_ids self (source_text corpus) in
  logits
    (model_call (decoder self) input_ids attention_masks
       (decoder_input_ids (target_ids self corpus)) false).

End Model.
End T5.

(* ===================================================================== *)
(** ** Executable instances of the interfaces                             *)
(* ===================================================================== *)

(** Stand-ins for the wrapped libraries, small enough to run: exact
    rational arithmetic with the special values of float division, a
    character-level tokenizer with the special ids of T5 (pad 0, end of
    sequence 1) that works byte by byte, and a decoder that echoes its
    input. *)
Module Demo.

Inductive xfloat : Type :=
| Fin (q : Q)
| PInf
| NInf
| NaN.

Definition xadd (a b : xfloat) : xfloat :=
  match a, b with
  | NaN, _ | _, NaN => NaN
  | Fin x, Fin y => Fin (Qred (x + y))
  | PInf, NInf | NInf, PInf => NaN
  | PInf, _ | _, PInf => PInf
  | NInf, _ | _, NInf => NInf
  end.

Definition xdiv (a b : xfloat) : xfloat :=
  match a, b with
  | NaN, _ | _, NaN => NaN
  | Fin x, Fin y =>
      if Qeq_bool y 0 then
        match (x ?= 0)%Q with
        | Eq => NaN
        | Gt => PInf
        | Lt => NInf
        end
      else Fin (Qred (x / y))
  | Fin _, _ => Fin 0
  | _, PInf | _, NInf => NaN
  | PInf, Fin y => if Qle_bool 0 y then PInf else NInf
  | NInf, Fin y => if Qle_bool 0 y then NInf else PInf
  end.

(** A score table read at the target class stands for the negative
    log-likelihood. *)
Definition xnll (x : list xfloat) (t : Z) : xfloat :=
  nth (Z.to_nat t mod 4) x NaN.

Definition xfl : TorchFloat :=
  {| F := xfloat;
     fzero := Fin 0;
     fadd := xadd;
     fdiv := xdiv;
     of_nat := fun n => Fin (inject_Z (Z.of_nat n));
     nll := xnll |}.

Definition pad_id : Z := 0.
Definition eos_id : Z := 1.

(** Case data that is exact on the code points below 256 and on two
    uppercase letters without a lowercase form, U+03D2 and U+1D400; every
    other character is taken as caseless.  In UTF-8 the capital letters
    U+00C0 to U+00DE are the byte 195 followed by a byte from 128 to 158,
    U+00D7 (151) apart, and their lowercase forms are 32 bytes further;
    [after_195] tells whether the byte before was 195. *)
Definition lower_byte (after_195 : bool) (b : ascii) : ascii :=
  let n := nat_of_ascii b in
  if in_range 65 90 n
     || (after_195 && in_range 128 158 n && negb (n =? 151)%nat)
  then ascii_of_nat (n + 32)
  else b.

Definition is_195 (b : ascii) : bool := (nat_of_ascii b =? 195)%nat.

Fixpoint lower_from (after_195 : bool) (s : string) : string :=
  match s with
  | EmptyString => EmptyString
  | String b s' => String (lower_byte after_195 b) (lower_from (is_195 b) s')
  end.

Definition latin_lower (s : string) : string := lower_from false s.

(** Whether the byte before the end of [s] is 195, [after_195] telling it
    for the empty string. *)
Fixpoint carry (after_195 : bool) (s : string) : bool :=
  match s with
  | EmptyString => after_195
  | String b s' => carry (is_195 b) s'
  end.

Definition is_letter (b : ascii) : bool :=
  in_range 65 90 (nat_of_ascii b) || in_range 97 122 (nat_of_ascii b).

Definition upsilon_hook : string := of_bytes [207; 146].
Definition bold_capital_a : string := of_bytes [240; 157; 144; 128].

(** Whether the character [c] is an uppercase letter. *)
Definition is_uppercase (c : string) : bool :=
  negb (String.eqb (latin_lower c) c)
  || String.eqb c upsilon_hook || String.eqb c bold_capital_a.

Definition char_id (c : ascii) : Z := Z.of_nat (nat_of_ascii c) + 3.

(** One string to [width] ids and their attention mask: truncated, closed
    by the end-of-sequence id, padded. *)
Definition encode (width : nat) (s : string) : list Z * list Z :=
  let ids := firstn (width - 1) (map char_id (bytes s)) ++ firstn width [eos_id] in
  let fill := (width - length ids)%nat in
  (ids ++ repeat pad_id fill, repeat 1%Z (length ids) ++ repeat 0%Z fill).

Definition width_of (max_length : pyval) : nat :=
  match max_length with
  | PyInt z => Z.to_nat z
  | _ => 0%nat
  end.

Definition tok_call (input : text_input) (kw : kwargs) : BatchEncoding :=
  let rows :=
    match input with
    | Single s => [encode (width_of (max_length kw)) s]
    | Batch ss => map (encode (width_of (max_length kw))) ss
    end in
  {| input_ids := map fst rows; attention_mask := map snd rows |}.

Fixpoint string_of (cs : list ascii) : string :=
  match cs with
  | [] => EmptyString
  | c :: cs' => String c (string_of cs')
  end.

Definition decode (skip_special_tokens : bool) (ids : list Z) : string :=
  string_of
    (map (fun i => ascii_of_nat (Z.to_nat (i - 3)))
       (filter (fun i => negb skip_special_tokens || (3 <=? i)%Z) ids)).

Definition tok : T5Tokenizer :=
  {| call := tok_call;
     batch_decode := fun sequences skip => map (decode skip) sequences;
     pad_token_id := pad_id |}.

(** Four scores per position, whatever the inputs. *)
Definition echo_call (input_ids attention_mask decoder_input_ids : tensor2 Z)
  (use_cache : bool) : Seq2SeqLMOutput xfl :=
  Build_Seq2SeqLMOutput xfl
    (map (map (fun _ => [Fin 1; Fin 2; Fin 3; Fin 4])) decoder_input_ids).

(** The start id followed by the input ids up to [max_length]. *)
Definition echo_generate (input_ids : tensor2 Z) (max_length : pyval)
  (early_stopping : bool) : tensor2 Z :=
  map (fun row => firstn (width_of max_length) (pad_id :: row)) input_ids.

Definition echo : T5ForConditionalGeneration xfl :=
  {| model_call := echo_call; model_generate := echo_generate |}.

Definition hub : Pretrained xfl :=
  {| T5Config := unit;
     T5Tokenizer_from_pretrained := fun _ _ => tok;
     T5Config_from_pretrained := fun _ => tt;
     T5ForConditionalGeneration_from_pretrained := fun _ _ => echo |}.

Definition vocab : Dataset :=
  {| hasattr_source_idx2token := true;
     source_idx2token := ["<pad>"; "</s>"; "ein"; "haus"];
     target_idx2token := ["<pad>"; "</s>"; "a"; "house"; "the"];
     idx2token := [] |}.

Definition shared_vocab : Dataset :=
  {| hasattr_source_idx2token := false;
     source_idx2token := [];
     target_idx2token := [];
     idx2token := ["<pad>"; "</s>"; "a"] |}.

(** A configuration with the given task and source length. *)
Definition config (task : pyval) (source_len : Z) : Config :=
  fun key =>
    if String.eqb key "task_type" then task
    else if String.eqb key "source_max_seq_length" then PyInt source_len
    else if String.eqb key "target_max_seq_length" then PyInt 32
    else if String.eqb key "pretrained_model_path" then PyStr "t5-small"
    else if String.eqb key "train_batch_size" then PyInt 2
    else if String.eqb key "device" then PyStr "cpu"
    else PyNone.

(** The model [T5(config, dataset)] builds for a supported task. *)
Definition model (prefix : string) (source_len : Z) : T5.t hub :=
  @T5.Build_t xfl hub
    (Seq2SeqGenerator.__init__ (config PyNone source_len) vocab)
    (PyInt source_len) (PyInt 32) (PyStr "t5-small") tok tt echo pad_id
    {| ignore_index := pad_id; reduction := "none" |} prefix.

Definition batch : Corpus :=
  {| source_text := [["Ein"; "Haus"]; ["Hallo"]];
     target_text := [["a"]; ["b"; "c"]] |}.

End Demo.

(* ===================================================================== *)
(** ** The loss as the specification words it                             *)
(* ===================================================================== *)

Module Spec.
Section Float.
Variable fl : TorchFloat.

(** The per-token cross-entropy summed over the positions of one shifted
    target, a padding position counting for zero, divided by the number of
    positions that are not padding. *)
Definition sequence_loss (pad : Z) (scores : tensor2 (F fl)) (targets : list Z)
  : F fl :=
  let per_token :=
    zip_with (fun x t => if (t =? pad)%Z then fzero fl else nll fl x t)
      scores targets in
  let non_padding := filter (fun t => negb (t =? pad)%Z) targets in
  fdiv fl (fsum fl per_token) (of_nat fl (length non_padding)).

(** The mean over the batch of the per-sequence values. *)
Definition length_normalized_loss (pad : Z) (scores : tensor3 (F fl))
  (targets : tensor2 Z) : F fl :=
  mean fl (zip_with (sequence_loss pad) scores targets).

End Float.
End Spec.

(* ===================================================================== *)
(** ** The rest of [abstract_generator.py]                                *)
(* ===================================================================== *)

(** A dataset with attributes has, besides the vocabulary, one table of
    values per attribute. *)
Record AttributeDataset : Type := {
  dataset_of : Dataset;
  idx2attribute : list (list string)
}.

Module AttributeGenerator.

Record t : Type := {
  vocab_size : nat;
  attribute_size : list nat;
  attribute_num : nat;
  batch_size : pyval;
  device : pyval
}.

(** [nn.Module.__init__()] runs first; it sets none of these attributes. *)
Definition __init__ (config : Config) (dataset : AttributeDataset) : t :=
  let vocab_size := length (idx2token (dataset_of dataset)) in
  let attribute_size :=
    map (fun a2t => length a2t) (idx2attribute dataset) in
  let attribute_num := length attribute_size in
  let batch_size := config "train_batch_size" in
  let device := config "device" in
  {| vocab_size := vocab_size; attribute_size := attribute_size;
     attribute_num := attribute_num; batch_size := batch_size;
     device := device |}.

End AttributeGenerator.

(* ===================================================================== *)
(** ** Notions for the statements, and further instances                  *)
(* ===================================================================== *)

(** Two rows of scores agree wherever the target is not [pad]. *)
Definition agree_off_padding {A : Type} (pad : Z) (scores scores' : tensor2 A)
  (targets : tensor1 Z) : Prop :=
  Forall (fun '(x, x', t) => t <> pad -> x = x')
    (combine (combine scores scores') targets).

(** [''.join(cs)]: the string made of the given characters. *)
Fixpoint glue (cs : list string) : string :=
  match cs with
  | [] => EmptyString
  | c :: cs' => (c ++ glue cs')%string
  end.

(** A string that does not begin in the middle of a character. *)
Definition starts_character (s : string) : Prop :=
  match s with
  | EmptyString => True
  | String b _ => is_continuation b = false
  end.


(** A word as [' '.join] and [split] see it: not empty, no whitespace. *)
Definition is_word (w : string) : Prop :=
  w <> EmptyString /\ starts_character w /\
  Forall (fun c => isspace c = false) (characters w).

Module Alt.

(** A decoder that scores differently than [Demo.echo] after the end of a
    sequence. *)
Definition eager_call (input_ids attention_mask decoder_input_ids : tensor2 Z)
  (use_cache : bool) : Seq2SeqLMOutput Demo.xfl :=
  Build_Seq2SeqLMOutput Demo.xfl
    (map (map (fun d =>
                 if (d <=? 1)%Z
                 then [Demo.Fin 9; Demo.Fin 9; Demo.Fin 9; Demo.Fin 9]
                 else [Demo.Fin 1; Demo.Fin 2; Demo.Fin 3; Demo.Fin 4]))
       decoder_input_ids).

Definition eager : T5ForConditionalGeneration Demo.xfl :=
  {| model_call := eager_call; model_generate := Demo.echo_generate |}.

(** A tokenizer with the ids of [Demo.tok] and an attention mask of ones. *)
Definition unmasked_call (input : text_input) (kw : kwargs) : BatchEncoding :=
  {| input_ids := input_ids (Demo.tok_call input kw);
     attention_mask := map (map (fun _ => 1%Z)) (input_ids (Demo.tok_call input kw)) |}.

Definition unmasked : T5Tokenizer :=
  {| call := unmasked_call;
     batch_decode := batch_decode Demo.tok;
     pad_token_id := Demo.pad_id |}.

(** [Demo.model] with another tokenizer and decoder. *)
Definition model (tok : T5Tokenizer) (dec : T5ForConditionalGeneration Demo.xfl)
  (prefix : string) (source_len : Z) : T5.t Demo.hub :=
  @T5.Build_t Demo.xfl Demo.hub
    (Seq2SeqGenerator.__init__ (Demo.config PyNone source_len) Demo.vocab)
    (PyInt source_len) (PyInt 32) (PyStr "t5-small") tok tt dec Demo.pad_id
    {| ignore_index := Demo.pad_id; reduction := "none" |} prefix.

(** [Demo.config] with other values for the keys [forward] does not read. *)
Definition config (task : pyval) (source_len : Z) : Config :=
  fun key =>
    if String.eqb key "target_max_seq_length" then PyInt 7
    else if String.eqb key "train_batch_size" then PyInt 64
    else Demo.config task source_len key.


Definition attributes : AttributeDataset :=
  {| dataset_of := Demo.shared_vocab;
     idx2attribute := [["pos"; "neg"]; ["book"; "film"; "food"]] |}.

End Alt.

(* ===================================================================== *)
(** ** Facts about the built-ins                                          *)
(* ===================================================================== *)

Section StrFacts.

Lemma append_assoc (a b c : string) : ((a ++ b) ++ c = a ++ (b ++ c))%string.
Proof.
  induction a as [|x a IH]; simpl; [reflexivity | now rewrite IH].
Qed.

Lemma append_empty (a : string) : (a ++ EmptyString)%string = a.
Proof.
  induction a as [|x a IH]; simpl; [reflexivity | now rewrite IH].
Qed.


(** Reading on from a byte that starts a character. *)
Lemma characters_from_app (a : string) :
  forall current b,
    starts_character b ->
    characters_from current (a ++ b) =
    characters_from current a ++ characters b.
Proof.
  induction a as [|x a IH]; intros current b Hb; simpl.
  - destruct b as [|y b]; simpl.
    + now rewrite app_nil_r.
    + simpl in Hb. unfold characters. simpl. rewrite Hb.
      destruct current; reflexivity.
  - destruct (is_continuation x); [now apply IH|].
    destruct current; simpl; now rewrite IH.
Qed.

(** The characters of a string make up the string. *)
Lemma glue_characters_from (s : string) :
  forall current, glue (characters_from current s) = (current ++ s)%string.
Proof.
  induction s as [|x s IH]; intros current; simpl.
  - destruct current; simpl; [reflexivity|]. now rewrite !append_empty.
  - destruct (is_continuation x).
    + rewrite IH, append_assoc. reflexivity.
    + destruct current; simpl; rewrite IH; reflexivity.
Qed.

Lemma glue_characters (s : string) : glue (characters s) = s.
Proof. apply glue_characters_from. Qed.

(** Reading a run of non-space characters extends the current word. *)
Lemma split_from_run (run : list string) :
  forall word rest,
    Forall (fun c => isspace c = false) run ->
    split_from word (run ++ rest) = split_from (word ++ glue run) rest.
Proof.
  induction run as [|c run IH]; intros word rest Hrun; simpl.
  - now rewrite append_empty.
  - inversion Hrun as [|? ? Hc Hrun']; subst. rewrite Hc.
    rewrite IH by assumption. now rewrite append_assoc.
Qed.

(** A whitespace character closes the current word. *)
Lemma split_from_space (word c : string) (rest : list string) :
  isspace c = true -> word <> EmptyString ->
  split_from word (c :: rest) = word :: split_from EmptyString rest.
Proof.
  intros Hc Hword. simpl. rewrite Hc. destruct word; [contradiction | reflexivity].
Qed.

Lemma split_word (w : string) : is_word w -> split w = [w].
Proof.
  intros [Hne [_ Hw]]. unfold split.
  rewrite <- (app_nil_r (characters w)), split_from_run by assumption.
  simpl. rewrite glue_characters. destruct w; [contradiction | reflexivity].
Qed.

(** A word, a space, and the rest. *)
Lemma split_word_space (w rest : string) :
  is_word w -> starts_character rest ->
  split (w ++ String " " rest) = w :: split rest.
Proof.
  intros [Hne [_ Hw]] Hrest. unfold split, characters.
  rewrite characters_from_app by reflexivity.
  fold (characters w). rewrite split_from_run by assumption.
  simpl append. rewrite glue_characters.
  change (characters (String " " rest))
    with (characters_from (String " " EmptyString) (EmptyString ++ rest)).
  rewrite characters_from_app by assumption.
  apply split_from_space; [reflexivity | assumption].
Qed.

Lemma join_starts_character (words : list string) :
  Forall is_word words -> starts_character (join " " words).
Proof.
  intros Hwords. destruct words as [|w words]; [exact I|].
  inversion Hwords as [|? ? [Hne [Hstart _]] _]; subst.
  unfold join. simpl. destruct words; destruct w; try contradiction; exact Hstart.
Qed.

Lemma split_join (words : list string) :
  Forall is_word words -> split (join " " words) = words.
Proof.
  induction words as [|w words IH]; intros Hwords; [reflexivity|].
  inversion Hwords as [|? ? Hw Hrest]; subst.
  destruct words as [|w' words].
  - simpl. now apply split_word.
  - change (join " " (w :: w' :: words))
      with (w ++ String " " (join " " (w' :: words)))%string.
    rewrite split_word_space;
      [now rewrite IH | assumption | now apply join_starts_character].
Qed.


(** Every character after the first starts with a byte that starts a
    character. *)
Lemma characters_from_start (s : string) :
  forall current,
    current <> EmptyString -> starts_character current ->
    Forall starts_character (characters_from current s).
Proof.
  induction s as [|b s IH]; intros current Hne Hstart; simpl.
  - destruct current; [contradiction | now constructor].
  - destruct (is_continuation b) eqn:Hb.
    + apply IH; destruct current; try contradiction; [discriminate | exact Hstart].
    + destruct current; [contradiction|]. constructor; [exact Hstart|].
      apply IH; [discriminate | exact Hb].
Qed.

Lemma characters_from_tail (s : string) :
  forall current, Forall starts_character (tl (characters_from current s)).
Proof.
  induction s as [|b s IH]; intros current; simpl.
  - destruct current; constructor.
  - destruct (is_continuation b) eqn:Hb; [apply IH|].
    destruct current; [apply IH|]. simpl.
    apply characters_from_start; [discriminate | exact Hb].
Qed.








End StrFacts.

Section SliceFacts.
Variable A : Type.

(** [l[:-1]] drops the last element. *)
Lemma slice_drop_last (l : list A) :
  slice None (Some (-1)%Z) l = firstn (length l - 1) l.
Proof.
  unfold slice, slice_bound.
  replace (-1 <? 0)%Z with true by reflexivity.
  replace (Z.to_nat (Z.max (-1 + Z.of_nat (length l)) 0 - 0)) with (length l - 1)%nat
    by lia.
  reflexivity.
Qed.

(** [l[1:]] drops the first element. *)
Lemma slice_drop_first (l : list A) :
  slice (Some 1%Z) None l = skipn 1 l.
Proof.
  unfold slice, slice_bound.
  destruct l as [|a l]; [reflexivity|].
  replace (1 <? 0)%Z with false by reflexivity.
  replace (Z.to_nat (Z.min 1 (Z.of_nat (length (a :: l))))) with 1%nat
    by (simpl length; lia).
  replace (Z.to_nat (Z.of_nat (length (a :: l)) - Z.min 1 (Z.of_nat (length (a :: l)))))
    with (length l) by (simpl length; lia).
  simpl. apply firstn_all.
Qed.

Lemma slice_drop_last_length (l : list A) :
  length (slice None (Some (-1)%Z) l) = (length l - 1)%nat.
Proof. rewrite slice_drop_last, length_firstn. lia. Qed.

Lemma slice_drop_first_length (l : list A) :
  length (slice (Some 1%Z) None l) = (length l - 1)%nat.
Proof. rewrite slice_drop_first, length_skipn. reflexivity. Qed.

End SliceFacts.

Section TensorFacts.
Variables A B C : Type.

Lemma zip_with_length (f : A -> B -> C) (l : list A) :
  forall r, length (zip_with f l r) = Nat.min (length l) (length r).
Proof.
  induction l as [|a l IH]; intros [|b r]; simpl; try reflexivity.
  now rewrite IH.
Qed.

Lemma zip_with_app (f : A -> B -> C) (l : list A) :
  forall r l' r', length l = length r ->
    zip_with f (l ++ l') (r ++ r') = zip_with f l r ++ zip_with f l' r'.
Proof.
  induction l as [|a l IH]; intros [|b r] l' r' Hlen; simpl in *;
    try discriminate; [reflexivity|].
  f_equal. apply IH. now injection Hlen.
Qed.

(** Rows of [t] and [u] pair up when both have the same shape. *)
Lemma zip_with_concat (f : A -> B -> C) (cols : nat) (t : tensor2 A) :
  forall (u : tensor2 B),
    Forall (fun row => length row = cols) t ->
    Forall (fun row => length row = cols) u ->
    zip_with f (concat t) (concat u) = concat (zip_with (zip_with f) t u).
Proof.
  induction t as [|x t IH]; intros [|y u] Ht Hu; simpl.
  - reflexivity.
  - reflexivity.
  - inversion Ht as [|? ? Hx Ht']; subst.
    destruct (x ++ concat t); reflexivity.
  - inversion Ht as [|? ? Hx Ht']; inversion Hu as [|? ? Hy Hu']; subst.
    rewrite zip_with_app by congruence.
    f_equal. now apply IH.
Qed.

Lemma has_shape_spec (rows cols : nat) (t : tensor2 A) :
  has_shape rows cols t = true <->
  length t = rows /\ Forall (fun row => length row = cols) t.
Proof.
  unfold has_shape. rewrite andb_true_iff, Nat.eqb_eq, forallb_forall, Forall_forall.
  split; intros [H1 H2]; split; try exact H1; intros row Hrow.
  - apply Nat.eqb_eq. now apply H2.
  - apply Nat.eqb_eq. now apply H2.
Qed.

(** Cutting the flattened tensor by its own shape gives it back. *)
Lemma chunks_concat (cols : nat) (t : tensor2 A) :
  Forall (fun row => length row = cols) t ->
  chunks (length t) cols (concat t) = t.
Proof.
  induction t as [|x t IH]; intros Ht; simpl; [reflexivity|].
  inversion Ht as [|? ? Hx Ht']; subst.
  rewrite firstn_app, Nat.sub_diag, firstn_all, firstn_O, app_nil_r.
  rewrite skipn_app, Nat.sub_diag, skipn_all, skipn_O. simpl.
  f_equal. now apply IH.
Qed.

(** Reshaping the flattened tensor as a tensor of its own shape gives it
    back. *)
Lemma reshape_as_concat (cols : nat) (t : tensor2 A) (other : tensor2 B) :
  length t = length other ->
  Forall (fun row => length row = cols) t ->
  Forall (fun row => length row = cols) other ->
  reshape_as (concat t) other = t.
Proof.
  intros Hlen Ht Hother. unfold reshape_as, size2. rewrite <- Hlen.
  destruct other as [|row other'].
  - destruct t; [reflexivity | discriminate Hlen].
  - inversion Hother as [|? ? Hrow _]; subst. now apply chunks_concat.
Qed.

Lemma fold_left_extend (f : A -> list B) (l : list A) :
  forall acc, fold_left (fun acc a => acc ++ f a) l acc = acc ++ concat (map f l).
Proof.
  induction l as [|a l IH]; intros acc; simpl.
  - now rewrite app_nil_r.
  - now rewrite IH, app_assoc.
Qed.

End TensorFacts.

Section ZipFacts.
Variables A B C D : Type.

Lemma zip_with_ext (f g : A -> B -> C) :
  (forall a b, f a b = g a b) ->
  forall l r, zip_with f l r = zip_with g l r.
Proof.
  intros Hfg. induction l as [|a l IH]; intros [|b r]; simpl; try reflexivity.
  now rewrite Hfg, IH.
Qed.

(** Dividing row sums by row counts, row by row. *)
Lemma zip_with_rows (g : A -> B -> C) (s : C -> D) (h : B -> D)
  (d : D -> D -> D) (l : list A) :
  forall r,
    zip_with d (map s (zip_with g l r)) (map h r) =
    zip_with (fun a b => d (s (g a b)) (h b)) l r.
Proof.
  induction l as [|a l IH]; intros [|b r]; simpl; try reflexivity.
  now rewrite IH.
Qed.

Lemma zip_with_rows_shape (g : A -> B -> C) (cols : nat) (t : tensor2 A) :
  forall (u : tensor2 B),
    Forall (fun row => length row = cols) t ->
    Forall (fun row => length row = cols) u ->
    Forall (fun row => length row = cols) (zip_with (zip_with g) t u).
Proof.
  induction t as [|x t IH]; intros [|y u] Ht Hu; simpl; try constructor.
  - inversion Ht; inversion Hu; subst.
    rewrite zip_with_length. lia.
  - inversion Ht; inversion Hu; subst. now apply IH.
Qed.

Lemma zip_with_map_right (f : A -> B -> C) (g : D -> B) (l : list A) :
  forall r, zip_with f l (map g r) = zip_with (fun a d => f a (g d)) l r.
Proof.
  induction l as [|a l IH]; intros [|d r]; simpl; try reflexivity.
  now rewrite IH.
Qed.

End ZipFacts.

Lemma count_true_ne (pad : Z) (row : list Z) :
  length (filter (fun b : bool => b) (map (fun x => negb (x =? pad)%Z) row)) =
  length (filter (fun t => negb (t =? pad)%Z) row).
Proof.
  induction row as [|x row IH]; simpl; [reflexivity|].
  destruct (x =? pad)%Z; simpl; now rewrite IH.
Qed.

Lemma pyval_eqb_eq (a b : pyval) : pyval_eqb a b = true <-> a = b.
Proof.
  destruct a, b; simpl; split; intros H; try discriminate; try reflexivity.
  - apply Bool.eqb_prop in H. now subst.
  - injection H as ->. apply Bool.eqb_reflx.
  - apply Z.eqb_eq in H. now subst.
  - injection H as ->. apply Z.eqb_refl.
  - apply String.eqb_eq in H. now subst.
  - injection H as ->. apply String.eqb_refl.
Qed.

(** A goal on every row of a mapped tensor, from [Hrows] on its rows. *)
Ltac by_rows Hrows :=
  first [apply map_ext_Forall | apply Forall_map];
  revert Hrows; apply Forall_impl; intros ? <-.

(* ===================================================================== *)
(** ** Facts about the T5 model                                           *)
(* ===================================================================== *)

Section T5Facts.
Variable fl : TorchFloat.
Variable hub : Pretrained fl.
Context {unicode : Unicode}.
Implicit Type self : T5.t hub.

(** The loop of [calculate_ids] collects one tokenizer result per text. *)
Lemma calculate_ids_loop self (texts : list (list string)) :
  forall ids masks,
    fold_left
      (fun '(ids, masks) text =>
         let '(input, kw) := T5.calculate_ids_tokenizer_call self text in
         let inputs := call (T5.tokenizer self) input kw in
         (ids ++ [input_ids inputs], masks ++ [attention_mask inputs]))
      texts (ids, masks) =
    (ids ++ map (fun text =>
                   input_ids (call (T5.tokenizer self) (Single (T5.sequence self text))
                                (T5.tokenizer_kwargs self))) texts,
     masks ++ map (fun text =>
                     attention_mask (call (T5.tokenizer self) (Single (T5.sequence self text))
                                       (T5.tokenizer_kwargs self))) texts).
Proof.
  induction texts as [|text texts IH]; intros ids masks; simpl.
  - now rewrite !app_nil_r.
  - rewrite IH, <- !app_assoc. reflexivity.
Qed.

Lemma calculate_ids_fst self (texts : list (list string)) :
  fst (T5.calculate_ids self texts) =
  concat (map (fun text =>
                 input_ids (call (T5.tokenizer self) (Single (T5.sequence self text))
                              (T5.tokenizer_kwargs self))) texts).
Proof.
  unfold T5.calculate_ids. rewrite calculate_ids_loop. reflexivity.
Qed.

Lemma generate_concat self (eval_dataloader : list Corpus) :
  T5.generate self eval_dataloader =
  concat (map (T5.batch_decoded_text self) eval_dataloader).
Proof.
  unfold T5.generate. now rewrite fold_left_extend.
Qed.

(** [generate] with its loop and its locals written out. *)
Lemma generate_unfold self (eval_dataloader : list Corpus) :
  T5.generate self eval_dataloader =
  concat
    (map (fun batch_data =>
            map (fun text => split (lower text))
              (batch_decode (T5.tokenizer self)
                 (model_generate (T5.decoder self)
                    (input_ids
                       (call (T5.tokenizer self)
                          (Batch (map (fun text =>
                                         (T5.t5_task_text self ++ join " " text)%string)
                                    (source_text batch_data)))
                          (T5.tokenizer_kwargs self)))
                    (T5.max_target_length self) true)
                 true))
       eval_dataloader).
Proof. apply generate_concat. Qed.

(** [calculate_ids] with its loop written out. *)
Lemma calculate_ids_unfold self (texts : list (list string)) :
  T5.calculate_ids self texts =
  (concat (map (fun text =>
                  input_ids (call (T5.tokenizer self)
                               (Single (T5.t5_task_text self ++ join " " text)%string)
                               (T5.tokenizer_kwargs self))) texts),
   concat (map (fun text =>
                  attention_mask (call (T5.tokenizer self)
                                    (Single (T5.t5_task_text self ++ join " " text)%string)
                                    (T5.tokenizer_kwargs self))) texts)).
Proof.
  unfold T5.calculate_ids. rewrite calculate_ids_loop. reflexivity.
Qed.

(** What the constructor leaves in the attributes the loss reads. *)
Lemma init_attributes (config : Config) (dataset : Dataset) self :
  T5.__init__ hub config dataset = Ok self ->
  ignore_index (T5.loss self) = pad_token_id (T5.tokenizer self) /\
  T5.padding_token_idx self = pad_token_id (T5.tokenizer self).
Proof.
  unfold T5.__init__.
  destruct (pyval_eqb (config "task_type") (PyStr "summarization"));
    [|destruct (pyval_eqb (config "task_type") (PyStr "translation"))];
    simpl; intros H; try discriminate; injection H as <-; simpl; auto.
Qed.

Lemma decoder_target_ids_shape (t : tensor2 Z) (cols : nat) :
  Forall (fun row => length row = cols) t ->
  Forall (fun row => length row = (cols - 1)%nat) (T5.decoder_target_ids t).
Proof.
  unfold T5.decoder_target_ids, slice_cols. intros Ht.
  apply Forall_map. revert Ht. apply Forall_impl.
  intros row <-. apply slice_drop_first_length.
Qed.

Lemma calculate_ids_snd self (texts : list (list string)) :
  snd (T5.calculate_ids self texts) =
  concat (map (fun text =>
                 attention_mask (call (T5.tokenizer self) (Single (T5.sequence self text))
                                   (T5.tokenizer_kwargs self))) texts).
Proof.
  unfold T5.calculate_ids. rewrite calculate_ids_loop. reflexivity.
Qed.

(** The concatenation of one-row tensors has one row per tensor. *)
Lemma concat_single_rows (A B : Type) (f : A -> tensor2 B) (W : nat) (l : list A) :
  (forall a, has_shape 1 W (f a) = true) ->
  has_shape (length l) W (concat (map f l)) = true /\
  map (fun row => [row]) (concat (map f l)) = map f l.
Proof.
  intros Hone.
  assert (Hrow : forall a, exists row, f a = [row] /\ length row = W).
  { intros a. specialize (Hone a). apply has_shape_spec in Hone.
    destruct Hone as [Hlen Hrows]. destruct (f a) as [|row [|? ?]]; try discriminate.
    exists row. split; [reflexivity|]. now inversion Hrows. }
  induction l as [|a l [IHshape IHrows]]; [split; reflexivity|].
  destruct (Hrow a) as [row [Ha Hlen]]. simpl. rewrite Ha. simpl. split.
  - apply has_shape_spec in IHshape. destruct IHshape as [IHlen IHall].
    apply has_shape_spec. split; [simpl; now rewrite IHlen|].
    constructor; assumption.
  - now rewrite IHrows.
Qed.

(** [forward] in terms of the three tensors it computes first. *)
Lemma forward_unfold self (corpus : Corpus) :
  T5.forward self corpus =
  let input_ids := fst (T5.calculate_ids self (source_text corpus)) in
  let attention_masks := snd (T5.calculate_ids self (source_text corpus)) in
  let targets := T5.decoder_target_ids (fst (T5.calculate_ids self (target_text corpus))) in
  let scores :=
    logits (model_call (T5.decoder self) input_ids attention_masks
              (T5.decoder_input_ids (fst (T5.calculate_ids self (target_text corpus))))
              false) in
  mean fl
    (div fl
       (sum_dim1 fl
          (reshape_as
             (cross_entropy fl (T5.loss self) (view_flat scores) (view_flat targets))
             targets))
       (float fl (T5.target_length self targets))).
Proof.
  unfold T5.forward.
  destruct (T5.calculate_ids self (source_text corpus)).
  destruct (T5.calculate_ids self (target_text corpus)).
  reflexivity.
Qed.

Lemma token_logits_unfold self (corpus : Corpus) :
  T5.token_logits self corpus =
  logits (model_call (T5.decoder self)
            (fst (T5.calculate_ids self (source_text corpus)))
            (snd (T5.calculate_ids self (source_text corpus)))
            (T5.decoder_input_ids (T5.target_ids self corpus)) false).
Proof.
  unfold T5.token_logits.
  destruct (T5.calculate_ids self (source_text corpus)). reflexivity.
Qed.

(** The loss of well-shaped tensors, row by row. *)
Lemma loss_by_rows (crit : CrossEntropyLoss) (pad : Z) (B C : nat)
  (scores : tensor3 (F fl)) (targets : tensor2 Z) :
  ignore_index crit = pad ->
  has_shape B C scores = true ->
  has_shape B C targets = true ->
  mean fl
    (div fl
       (sum_dim1 fl
          (reshape_as
             (cross_entropy fl crit (view_flat scores) (view_flat targets))
             targets))
       (float fl (sum_dim1_bool (ne targets pad)))) =
  Spec.length_normalized_loss fl pad scores targets.
Proof.
  intros Hign Hscores Htargets.
  apply has_shape_spec in Hscores. destruct Hscores as [HB Hscores].
  apply has_shape_spec in Htargets. destruct Htargets as [HB' Htargets].
  unfold cross_entropy, view_flat.
  rewrite (zip_with_concat _ Hscores Htargets).
  rewrite reshape_as_concat with (cols := C);
    [ | rewrite zip_with_length; lia
      | now apply zip_with_rows_shape
      | assumption ].
  unfold Spec.length_normalized_loss. f_equal.
  unfold div, sum_dim1, float, sum_dim1_bool, ne.
  rewrite !map_map, zip_with_rows.
  apply zip_with_ext. intros x row.
  unfold Spec.sequence_loss. rewrite count_true_ne. f_equal. f_equal.
  apply zip_with_ext. intros a t. unfold token_loss. now rewrite Hign.
Qed.

Lemma decoder_input_ids_shape (t : tensor2 Z) (B L : nat) :
  has_shape B L t = true ->
  has_shape B (L - 1) (T5.decoder_input_ids t) = true.
Proof.
  intros Ht. apply has_shape_spec in Ht. destruct Ht as [HB Ht].
  apply has_shape_spec. unfold T5.decoder_input_ids, slice_cols. split.
  - now rewrite length_map.
  - by_rows Ht. apply slice_drop_last_length.
Qed.

Lemma decoder_target_ids_has_shape (t : tensor2 Z) (B L : nat) :
  has_shape B L t = true ->
  has_shape B (L - 1) (T5.decoder_target_ids t) = true.
Proof.
  intros Ht. apply has_shape_spec in Ht. destruct Ht as [HB Ht].
  apply has_shape_spec. split.
  - unfold T5.decoder_target_ids, slice_cols. now rewrite length_map.
  - now apply decoder_target_ids_shape.
Qed.

End T5Facts.

(* ===================================================================== *)
(** ** The training loss                                                  *)
(* ===================================================================== *)

Section Loss.
Variable fl : TorchFloat.
Variable hub : Pretrained fl.
Context {unicode : Unicode}.
Implicit Type self : T5.t hub.

(** C1. On a batch whose tokenized targets form a [B x L] tensor and whose
    logits have one row of scores per shifted target position,
    [T5.forward] of a constructed model returns the length-normalized
    cross-entropy: per sequence, the per-token losses over the shifted
    target (zero where the target is the padding id, the [ignore_index] of
    the criterion) are summed and divided by the number of non-padding
    positions, and the mean over the batch is returned. *)
Theorem forward_length_normalized
  (config : Config) (dataset : Dataset) self (corpus : Corpus) (B L : nat) :
  T5.__init__ hub config dataset = Ok self ->
  has_shape B L (T5.target_ids self corpus) = true ->
  has_shape B (L - 1) (T5.token_logits self corpus) = true ->
  T5.forward self corpus =
  Spec.length_normalized_loss fl (pad_token_id (T5.tokenizer self))
    (T5.token_logits self corpus)
    (T5.decoder_target_ids (T5.target_ids self corpus)).
Proof.
  intros Hinit Htgt Hlog.
  destruct (init_attributes _ _ Hinit) as [Hign Hpad].
  unfold T5.forward, T5.token_logits, T5.target_ids, to in *.
  destruct (T5.calculate_ids self (source_text corpus)) as [input_ids masks].
  destruct (T5.calculate_ids self (target_text corpus)) as [tids dmasks].
  simpl fst in *.
  set (scores := logits _) in *.
  set (targets := T5.decoder_target_ids tids).
  apply has_shape_spec in Htgt. destruct Htgt as [HB Htgt].
  apply has_shape_spec in Hlog. destruct Hlog as [HB' Hlog].
  pose proof (decoder_target_ids_shape Htgt) as Hshift. fold targets in Hshift.
  assert (Hrows : length targets = B).
  { unfold targets, T5.decoder_target_ids, slice_cols. now rewrite length_map. }
  unfold cross_entropy, view_flat.
  rewrite (zip_with_concat _ Hlog Hshift).
  set (losses := zip_with (zip_with (token_loss fl (T5.loss self))) scores targets).
  assert (Hlosses : Forall (fun row => length row = (L - 1)%nat) losses)
    by (apply zip_with_rows_shape; assumption).
  assert (Hlen : length losses = B).
  { unfold losses. rewrite zip_with_length. lia. }
  assert (Hre : reshape_as (concat losses) targets = losses)
    by (apply reshape_as_concat with (cols := (L - 1)%nat); congruence).
  rewrite Hre.
  unfold Spec.length_normalized_loss. f_equal.
  unfold div, sum_dim1, float, T5.target_length, sum_dim1_bool, ne, losses.
  rewrite !map_map, zip_with_rows.
  apply zip_with_ext. intros x row.
  unfold Spec.sequence_loss. rewrite count_true_ne, Hpad. f_equal. f_equal.
  apply zip_with_ext. intros a t. unfold token_loss. now rewrite Hign.
Qed.

End Loss.

Section Shift.
Variable fl : TorchFloat.
Variable hub : Pretrained fl.
Context {unicode : Unicode}.
Implicit Type self : T5.t hub.

Lemma entry_map (A B : Type) (f : list A -> list B) (t : tensor2 A) (k i : nat) :
  entry (map f t) k i =
  match nth_error t k with
  | Some row => nth_error (f row) i
  | None => None
  end.
Proof.
  unfold entry. rewrite nth_error_map. now destruct (nth_error t k).
Qed.

(** C8. When every tokenized target has padded length [L], the decoder
    input ids are the first [L - 1] ids of each target ([target_ids[:,
    :-1]]) and the loss targets are its last [L - 1] ids ([target_ids[:,
    1:]]); position [i] of the decoder input holds target token [i] and
    position [i] of the loss target holds target token [i + 1], the next
    one.  [forward] calls the decoder on the first [L - 1] ids and takes
    the cross-entropy of the scores it returns against the last [L - 1]
    ids: on well-shaped scores, the loss of a sequence sets the scores at
    position [i] against target token [i + 1]. *)
Theorem forward_shifts_targets_by_one self (corpus : Corpus) (L : nat) :
  Forall (fun row => length row = L) (T5.target_ids self corpus) ->
  let target_ids := T5.target_ids self corpus in
  let inputs := map (firstn (L - 1)) target_ids in
  let targets := map (skipn (L - (L - 1))) target_ids in
  let scores :=
    logits
      (model_call (T5.decoder self)
         (fst (T5.calculate_ids self (source_text corpus)))
         (snd (T5.calculate_ids self (source_text corpus)))
         inputs false) in
  T5.decoder_input_ids target_ids = map (firstn (L - 1)) target_ids /\
  T5.decoder_target_ids target_ids = map (skipn (L - (L - 1))) target_ids /\
  Forall (fun row => length row = (L - 1)%nat) (T5.decoder_input_ids target_ids) /\
  Forall (fun row => length row = (L - 1)%nat) (T5.decoder_target_ids target_ids) /\
  (forall k i, (i < L - 1)%nat ->
     entry (T5.decoder_input_ids target_ids) k i = entry target_ids k i /\
     entry (T5.decoder_target_ids target_ids) k i = entry target_ids k (S i)) /\
  T5.forward self corpus =
    mean fl
      (div fl
         (sum_dim1 fl
            (reshape_as
               (cross_entropy fl (T5.loss self) (view_flat scores) (view_flat targets))
               targets))
         (float fl (sum_dim1_bool (ne targets (T5.padding_token_idx self))))) /\
  (has_shape (length target_ids) (L - 1) scores = true ->
   ignore_index (T5.loss self) = T5.padding_token_idx self ->
   T5.forward self corpus =
   mean fl
     (zip_with
        (fun position_scores row =>
           Spec.sequence_loss fl (T5.padding_token_idx self) position_scores
             (skipn (L - (L - 1)) row))
        scores target_ids)).
Proof.
  intros Hrows target_ids inputs targets scores. fold target_ids in Hrows.
  assert (Hinputs : T5.decoder_input_ids target_ids = inputs).
  { unfold T5.decoder_input_ids, slice_cols.
    by_rows Hrows. apply slice_drop_last. }
  assert (Htargets : T5.decoder_target_ids target_ids = targets).
  { unfold T5.decoder_target_ids, slice_cols.
    by_rows Hrows. rewrite slice_drop_first.
    match goal with |- skipn 1 ?r = _ => destruct r as [|a row] end;
      [reflexivity|].
    simpl length.
    now replace (S (length row) - (S (length row) - 1))%nat with 1%nat by lia. }
  assert (Hforward :
            T5.forward self corpus =
            mean fl
              (div fl
                 (sum_dim1 fl
                    (reshape_as
                       (cross_entropy fl (T5.loss self) (view_flat scores)
                          (view_flat targets))
                       targets))
                 (float fl (sum_dim1_bool (ne targets (T5.padding_token_idx self)))))).
  { rewrite forward_unfold. cbv zeta. fold (T5.target_ids self corpus).
    fold target_ids. now rewrite Hinputs, Htargets. }
  split; [exact Hinputs|]. split; [exact Htargets|].
  unfold T5.decoder_input_ids, T5.decoder_target_ids, slice_cols.
  split; [|split; [|split; [|split]]].
  - by_rows Hrows. apply slice_drop_last_length.
  - by_rows Hrows. apply slice_drop_first_length.
  - intros k i Hi. split.
    + rewrite entry_map. unfold entry.
      destruct (nth_error target_ids k) as [row|] eqn:Hk; [|reflexivity].
      rewrite slice_drop_last, nth_error_firstn.
      apply nth_error_In in Hk. rewrite Forall_forall in Hrows.
      rewrite (Hrows _ Hk).
      destruct (Nat.ltb_spec i (L - 1)); [reflexivity | lia].
    + rewrite entry_map. unfold entry.
      destruct (nth_error target_ids k) as [row|] eqn:Hk; [|reflexivity].
      now rewrite slice_drop_first, nth_error_skipn.
  - exact Hforward.
  - intros Hscores Hign. rewrite Hforward.
    rewrite loss_by_rows
      with (B := length target_ids) (C := (L - 1)%nat) (pad := T5.padding_token_idx self);
      [ | assumption | assumption | ].
    + unfold Spec.length_normalized_loss, targets. f_equal.
      apply zip_with_map_right.
    + rewrite <- Htargets. apply has_shape_spec. split.
      * unfold T5.decoder_target_ids, slice_cols. now rewrite length_map.
      * now apply decoder_target_ids_shape.
Qed.

(** C9. The divisor of a sequence is the number of non-padding ids in its
    shifted target, so it is non-zero for every sequence exactly when every
    shifted target holds an id other than the padding id.  With a source
    length of 1 the shifted targets of the sample batch are empty, every
    divisor is zero, and the loss is the quotient of zero by zero; a target
    row [5, 0, 0] with padding id 0 has the shifted target [0, 0] and the
    divisor zero as well. *)
Theorem length_zero_when_target_all_padding :
  (forall self (target_ids : tensor2 Z),
     Forall (fun n => n <> 0%nat)
       (T5.target_length self (T5.decoder_target_ids target_ids)) <->
     Forall (fun row => Exists (fun t => t <> T5.padding_token_idx self) row)
       (T5.decoder_target_ids target_ids)) /\
  (let self := Demo.model "summarize: " 1 in
   let shifted := T5.decoder_target_ids (T5.target_ids self Demo.batch) in
   Forall (Forall (fun t => t = T5.padding_token_idx self)) shifted /\
   T5.target_length self shifted = [0%nat; 0%nat] /\
   float Demo.xfl (T5.target_length self shifted) = [Demo.Fin 0; Demo.Fin 0] /\
   T5.forward self Demo.batch = Demo.NaN /\
   T5.target_length self (T5.decoder_target_ids [[5; 0; 0]; [7; 8; 0]]%Z) =
   [0%nat; 1%nat]).
Proof.
  split.
  - intros self target_ids. unfold T5.target_length, sum_dim1_bool, ne.
    rewrite map_map, Forall_map.
    induction (T5.decoder_target_ids target_ids) as [|row rows IH].
    + split; constructor.
    + split; intros H; inversion H as [|? ? Hrow Hrows]; subst;
        constructor; try (now apply IH).
      * clear -Hrow. rewrite count_true_ne in Hrow.
        induction row as [|t row IHrow]; simpl in Hrow; [contradiction|].
        destruct (Z.eqb_spec t (T5.padding_token_idx self)).
        -- right. now apply IHrow.
        -- now left.
      * clear -Hrow. rewrite count_true_ne.
        induction Hrow as [t row Ht | t row Hrow IHrow]; simpl.
        -- destruct (Z.eqb_spec t (T5.padding_token_idx self)); [contradiction|].
           simpl. discriminate.
        -- destruct (t =? T5.padding_token_idx self)%Z; simpl;
             [assumption | discriminate].
  - vm_compute. repeat split; repeat constructor.
Qed.

End Shift.

(* ===================================================================== *)
(** ** Generation and tokenization                                        *)
(* ===================================================================== *)

Section Generation.
Variable fl : TorchFloat.
Variable hub : Pretrained fl.
Context {unicode : Unicode}.
Implicit Type self : T5.t hub.


(** C10. When the tokenizer returns one row per string of a batch, the
    decoder generates one sequence per row and decoding returns one string
    per sequence, the corpus [T5.generate] returns is the decoded texts of
    the batches appended in batch order, each batch contributing one entry
    per source text: the corpus has as many entries as there are source
    texts, and the entry at the position of the [i]-th source text of a
    batch is the [i]-th decoded text of that batch. *)
Theorem generate_one_entry_per_source_text self (eval_dataloader : list Corpus) :
  (forall ss kw, length (input_ids (call (T5.tokenizer self) (Batch ss) kw)) = length ss) ->
  (forall ids max_len early,
     length (model_generate (T5.decoder self) ids max_len early) = length ids) ->
  (forall sequences skip,
     length (batch_decode (T5.tokenizer self) sequences skip) = length sequences) ->
  T5.generate self eval_dataloader =
    concat (map (T5.batch_decoded_text self) eval_dataloader) /\
  Forall (fun batch_data =>
            length (T5.batch_decoded_text self batch_data) =
            length (source_text batch_data)) eval_dataloader /\
  length (T5.generate self eval_dataloader) =
    length (concat (map source_text eval_dataloader)) /\
  (forall b i batch_data,
     nth_error eval_dataloader b = Some batch_data ->
     (i < length (source_text batch_data))%nat ->
     nth_error (T5.generate self eval_dataloader)
       (length (concat (map source_text (firstn b eval_dataloader))) + i) =
     nth_error (T5.batch_decoded_text self batch_data) i).
Proof.
  intros Htok Hgen Hdec.
  assert (Hbatch : forall batch_data,
             length (T5.batch_decoded_text self batch_data) =
             length (source_text batch_data)).
  { intros batch_data.
    unfold T5.batch_decoded_text, T5.batch_decoded_sequence,
      T5.batch_encoded_sequence, T5.generate_tokenizer_call, to.
    rewrite length_map, Hdec, Hgen, Htok.
    unfold T5.batch_sequences. apply length_map. }
  assert (Hcount : forall batches,
             length (concat (map (T5.batch_decoded_text self) batches)) =
             length (concat (map source_text batches))).
  { induction batches as [|batch_data rest IH]; simpl; [reflexivity|].
    now rewrite !length_app, IH, Hbatch. }
  split; [apply generate_concat|]. split; [|split].
  - apply Forall_forall. intros batch_data _. apply Hbatch.
  - rewrite generate_concat. apply Hcount.
  - intros b i batch_data Hb Hi. rewrite generate_concat.
    destruct (nth_error_split _ _ Hb) as [before [after [Heq Hlen]]].
    rewrite Heq at 1. rewrite map_app, concat_app. simpl.
    rewrite Heq, <- Hlen, firstn_app, Nat.sub_diag, firstn_all, firstn_O, app_nil_r.
    rewrite <- Hcount, nth_error_app2 by lia.
    replace (length (concat (map (T5.batch_decoded_text self) before)) + i
             - length (concat (map (T5.batch_decoded_text self) before)))%nat
      with i by lia.
    apply nth_error_app1. now rewrite Hbatch.
Qed.

(** C7. [T5.generate] and [T5.calculate_ids] hand the tokenizer the same
    strings, the task prefix followed by the words joined with single
    spaces, and the same keyword arguments ([max_length] the source length,
    padding to [max_length], truncation on): [calculate_ids] returns the
    tokenizer's ids and masks of these strings one by one, [generate]
    decodes what the decoder makes of the tokenizer's ids of the batch of
    these strings.  When the tokenizer encodes a padded batch row by row,
    both produce the same input ids, so [generate] decodes what the decoder
    makes of the ids [calculate_ids] returns. *)
Theorem generate_and_calculate_ids_tokenize_alike self
  (texts : list (list string)) :
  (forall ss kw, padding kw = "max_length" ->
     input_ids (call (T5.tokenizer self) (Batch ss) kw) =
     concat (map (fun s => input_ids (call (T5.tokenizer self) (Single s) kw)) ss)) ->
  let kw :=
    {| return_tensors := "pt"; max_length := T5.max_source_length self;
       padding := "max_length"; truncation := true |} in
  let text_of (text : list string) :=
    (T5.t5_task_text self ++ String.concat " " text)%string in
  T5.generate_tokenizer_call self texts = (Batch (map text_of texts), kw) /\
  (forall text, T5.calculate_ids_tokenizer_call self text = (Single (text_of text), kw)) /\
  T5.batch_encoded_sequence self texts = fst (T5.calculate_ids self texts) /\
  T5.calculate_ids self texts =
    (concat (map (fun text =>
                    input_ids (call (T5.tokenizer self) (Single (text_of text)) kw))
               texts),
     concat (map (fun text =>
                    attention_mask (call (T5.tokenizer self) (Single (text_of text)) kw))
               texts)) /\
  input_ids (call (T5.tokenizer self) (Batch (map text_of texts)) kw) =
    fst (T5.calculate_ids self texts) /\
  (forall eval_dataloader,
     T5.generate self eval_dataloader =
     concat
       (map (fun batch_data =>
               map (fun text => split (lower text))
                 (batch_decode (T5.tokenizer self)
                    (model_generate (T5.decoder self)
                       (input_ids
                          (call (T5.tokenizer self)
                             (Batch (map text_of (source_text batch_data))) kw))
                       (T5.max_target_length self) true)
                    true))
          eval_dataloader)) /\
  (forall eval_dataloader,
     T5.generate self eval_dataloader =
     concat
       (map (fun batch_data =>
               map (fun text => split (lower text))
                 (batch_decode (T5.tokenizer self)
                    (model_generate (T5.decoder self)
                       (fst (T5.calculate_ids self (source_text batch_data)))
                       (T5.max_target_length self) true)
                    true))
          eval_dataloader)).
Proof.
  intros Hbatch kw text_of.
  assert (Hsame : forall sources,
             input_ids (call (T5.tokenizer self) (Batch (map text_of sources)) kw) =
             fst (T5.calculate_ids self sources)).
  { intros sources. rewrite calculate_ids_fst, Hbatch by reflexivity.
    now rewrite map_map. }
  split; [reflexivity|]. split; [reflexivity|]. split; [apply Hsame|].
  split; [apply calculate_ids_unfold|]. split; [apply Hsame|].
  split; intros eval_dataloader; rewrite generate_unfold; [reflexivity|].
  f_equal. apply map_ext. intros batch_data.
  change (T5.tokenizer_kwargs self) with kw.
  fold text_of. now rewrite Hsame.
Qed.

(** C3. The constructor selects the task prefix from [config['task_type']]:
    "summarize: " for "summarization" and "translate German to English: "
    for "translation"; the constructed model prepends that prefix to every
    text it tokenizes: [calculate_ids] returns the tokenizer's ids and
    masks of the prefixed texts, and [generate] decodes what the decoder
    makes of the tokenizer's ids of the batch of prefixed texts. *)
Theorem init_selects_task_prefix (config : Config) (dataset : Dataset) :
  let tokenized_with (prefix : string) self :=
    T5.t5_task_text self = prefix /\
    (forall source_text,
       fst (T5.generate_tokenizer_call self source_text) =
       Batch (map (fun text => (prefix ++ String.concat " " text)%string) source_text)) /\
    (forall text,
       fst (T5.calculate_ids_tokenizer_call self text) =
       Single (prefix ++ String.concat " " text)%string) /\
    (forall texts,
       T5.calculate_ids self texts =
       (concat (map (fun text =>
                       input_ids
                         (call (T5.tokenizer self)
                            (Single (prefix ++ String.concat " " text)%string)
                            (T5.tokenizer_kwargs self))) texts),
        concat (map (fun text =>
                       attention_mask
                         (call (T5.tokenizer self)
                            (Single (prefix ++ String.concat " " text)%string)
                            (T5.tokenizer_kwargs self))) texts))) /\
    (forall eval_dataloader,
       T5.generate self eval_dataloader =
       concat
         (map (fun batch_data =>
                 map (fun text => split (lower text))
                   (batch_decode (T5.tokenizer self)
                      (model_generate (T5.decoder self)
                         (input_ids
                            (call (T5.tokenizer self)
                               (Batch (map (fun text =>
                                              (prefix ++ String.concat " " text)%string)
                                         (source_text batch_data)))
                               (T5.tokenizer_kwargs self)))
                         (T5.max_target_length self) true)
                      true))
            eval_dataloader)) in
  (config "task_type" = PyStr "summarization" ->
   exists self, T5.__init__ hub config dataset = Ok self /\
                tokenized_with "summarize: " self) /\
  (config "task_type" = PyStr "translation" ->
   exists self, T5.__init__ hub config dataset = Ok self /\
                tokenized_with "translate German to English: " self).
Proof.
  intros tokenized_with. unfold T5.__init__. split; intros ->; simpl;
    eexists; (split; [reflexivity|]); unfold tokenized_with;
    (split; [reflexivity|]); (split; [reflexivity|]); (split; [reflexivity|]);
    (split; [intros texts; apply calculate_ids_unfold
            | intros eval_dataloader; apply generate_unfold]).
Qed.

End Generation.

(* ===================================================================== *)
(** ** Constructors and abstract methods                                  *)
(* ===================================================================== *)

Section Constructors.
Variable fl : TorchFloat.
Variable hub : Pretrained fl.
Context {unicode : Unicode}.

(** C2. [T5.__init__] raises [NotImplementedError] exactly when
    [config['task_type']] is neither "summarization" nor "translation";
    for these two task types the construction completes. *)
Theorem init_raises_iff_task_unsupported (config : Config) (dataset : Dataset) :
  ((exists msg, T5.__init__ hub config dataset = Raise (NotImplementedError msg)) <->
   (config "task_type" <> PyStr "summarization" /\
    config "task_type" <> PyStr "translation")) /\
  (config "task_type" = PyStr "summarization" \/
   config "task_type" = PyStr "translation" ->
   exists self, T5.__init__ hub config dataset = Ok self).
Proof.
  unfold T5.__init__.
  destruct (pyval_eqb (config "task_type") (PyStr "summarization")) eqn:Hsum;
    [|destruct (pyval_eqb (config "task_type") (PyStr "translation")) eqn:Htra];
    simpl.
  - apply pyval_eqb_eq in Hsum. split.
    + split; [intros [msg H]; discriminate | intros [H _]; contradiction].
    + intros _. eexists. reflexivity.
  - apply pyval_eqb_eq in Htra. split.
    + split; [intros [msg H]; discriminate | intros [_ H]; contradiction].
    + intros _. eexists. reflexivity.
  - assert (Hs : config "task_type" <> PyStr "summarization")
      by (intros H; apply pyval_eqb_eq in H; congruence).
    assert (Ht : config "task_type" <> PyStr "translation")
      by (intros H; apply pyval_eqb_eq in H; congruence).
    split.
    + split; [intros _; now split | intros _; eexists; reflexivity].
    + intros [H|H]; contradiction.
Qed.

(** C5. The constructors of the abstract classes only initialize
    attributes.  [Seq2SeqGenerator.__init__] sets [batch_size] to
    [config['train_batch_size']] and [device] to [config['device']]; when
    the dataset has a [source_idx2token] attribute it sets
    [source_vocab_size] and [target_vocab_size] to the sizes of the source
    and target vocabularies, and otherwise [vocab_size] to
    [len(dataset.idx2token)].  [UnconditionalGenerator.__init__] sets
    [vocab_size], [batch_size] and [device] in the same way. *)
Theorem constructors_initialize_attributes (config : Config) (dataset : Dataset) :
  Seq2SeqGenerator.__init__ config dataset =
    (if hasattr_source_idx2token dataset then
       {| Seq2SeqGenerator.source_vocab_size := Some (length (source_idx2token dataset));
          Seq2SeqGenerator.target_vocab_size := Some (length (target_idx2token dataset));
          Seq2SeqGenerator.vocab_size := None;
          Seq2SeqGenerator.batch_size := Some (config "train_batch_size");
          Seq2SeqGenerator.device := Some (config "device") |}
     else
       {| Seq2SeqGenerator.source_vocab_size := None;
          Seq2SeqGenerator.target_vocab_size := None;
          Seq2SeqGenerator.vocab_size := Some (length (idx2token dataset));
          Seq2SeqGenerator.batch_size := Some (config "train_batch_size");
          Seq2SeqGenerator.device := Some (config "device") |}) /\
  UnconditionalGenerator.__init__ config dataset =
    {| UnconditionalGenerator.vocab_size := length (idx2token dataset);
       UnconditionalGenerator.batch_size := config "train_batch_size";
       UnconditionalGenerator.device := config "device" |}.
Proof.
  split; [|reflexivity].
  unfold Seq2SeqGenerator.__init__.
  destruct (hasattr_source_idx2token dataset); reflexivity.
Qed.

(** C6. The abstract methods raise [NotImplementedError] on every input:
    [calculate_loss], [generate] and [calculate_nll_test] of
    [AbstractModel], and [calculate_g_train_loss],
    [calculate_d_train_loss], [calculate_g_adversarial_loss] and [sample]
    of [GenerativeAdversarialNet]. *)
Theorem abstract_methods_raise (Self Arg T : Type) :
  (forall (self : Self) (corpus : Arg),
     AbstractModel.calculate_loss self corpus = @Raise T (NotImplementedError None)) /\
  (forall (self : Self) (corpus : Arg),
     AbstractModel.generate self corpus = @Raise T (NotImplementedError None)) /\
  (forall (self : Self) (eval_data : Arg),
     AbstractModel.calculate_nll_test self eval_data
     = @Raise T (NotImplementedError None)) /\
  (forall (self : GenerativeAdversarialNet.t) (corpus : Arg),
     GenerativeAdversarialNet.calculate_g_train_loss self corpus
     = @Raise T (NotImplementedError None)) /\
  (forall (self : GenerativeAdversarialNet.t) (real_data fake_data : Arg),
     GenerativeAdversarialNet.calculate_d_train_loss self real_data fake_data
     = @Raise T (NotImplementedError None)) /\
  (forall (self : GenerativeAdversarialNet.t),
     GenerativeAdversarialNet.calculate_g_adversarial_loss self
     = @Raise T (NotImplementedError None)) /\
  (forall (self : GenerativeAdversarialNet.t) (sample_num : Arg),
     GenerativeAdversarialNet.sample self sample_num
     = @Raise T (NotImplementedError None)).
Proof.
  repeat split.
Qed.

End Constructors.

(* ===================================================================== *)
(** ** Further properties: text in and text out                           *)
(* ===================================================================== *)

Section TextRoundTrip.
Variable fl : TorchFloat.
Variable hub : Pretrained fl.
Context {unicode : Unicode}.
Implicit Type self : T5.t hub.

(** X1. Joining words with single spaces and splitting again gives the
    words back, and lowercasing in between lowercases each word: what
    [generate] does to a decoded text undoes what it does to a source text,
    up to case. *)
Theorem split_join_round_trip (words : list string) :
  Forall is_word words ->
  split (join " " words) = words /\
  split (lower (join " " words)) = map lower words.
Proof.
  intros Hwords. split; [now apply split_join|].
  now rewrite lower_split, split_join.
Qed.

Lemma sequence_splits_into_prefix_and_words_aux
  (config : Config) (dataset : Dataset) self (text : list string) :
  T5.__init__ hub config dataset = Ok self ->
  Forall is_word text ->
  split (T5.sequence self text) = split (T5.t5_task_text self) ++ text.
Proof.
  intros Hinit Htext.
  pose proof (split_join Htext) as Hround.
  pose proof (join_starts_character Htext) as Hstart.
  assert (Hword : forall w,
             w <> EmptyString -> starts_character w ->
             forallb (fun c => negb (isspace c)) (characters w) = true ->
             is_word w).
  { intros w Hne Hw Hall. repeat split; try assumption.
    rewrite forallb_forall in Hall. apply Forall_forall. intros c Hc.
    specialize (Hall c Hc). now destruct (isspace c). }
  unfold T5.__init__ in Hinit.
  destruct (pyval_eqb (config "task_type") (PyStr "summarization"));
    [|destruct (pyval_eqb (config "task_type") (PyStr "translation"))];
    simpl in Hinit; try discriminate; injection Hinit as <-;
    unfold T5.sequence; simpl T5.t5_task_text.
  - change ("summarize: " ++ join " " text)%string
      with ("summarize:" ++ String " " (join " " text))%string.
    rewrite split_word_space, Hround;
      [reflexivity | apply Hword; [discriminate | reflexivity | reflexivity]
       | assumption].
  - change ("translate German to English: " ++ join " " text)%string
      with ("translate" ++ String " " ("German" ++ String " " ("to" ++
              String " " ("English:" ++ String " " (join " " text)))))%string.
    repeat (rewrite split_word_space;
            [ | apply Hword; [discriminate | reflexivity | reflexivity]
              | first [assumption | reflexivity] ]).
    now rewrite Hround.
Qed.

(** X2. For a constructed model, the string built from a text splits back
    into the words of the task prefix followed by the words of the text. *)
Theorem sequence_splits_into_prefix_and_words
  (config : Config) (dataset : Dataset) self (text : list string) :
  T5.__init__ hub config dataset = Ok self ->
  Forall is_word text ->
  split (T5.sequence self text) = split (T5.t5_task_text self) ++ text.
Proof.
  apply sequence_splits_into_prefix_and_words_aux.
Qed.

End TextRoundTrip.

(* ===================================================================== *)
(** ** Further properties: the generation loop                            *)
(* ===================================================================== *)

Section GenerationLoop.
Variable fl : TorchFloat.
Variable hub : Pretrained fl.
Context {unicode : Unicode}.
Implicit Type self : T5.t hub.

(** X3. Generation works batch by batch: an empty data loader gives an
    empty corpus, and the corpus of two data loaders run one after the
    other is the corpus of the first followed by the corpus of the
    second. *)
Theorem generate_batch_by_batch self (first second : list Corpus) :
  T5.generate self [] = [] /\
  T5.generate self (first ++ second) =
  T5.generate self first ++ T5.generate self second.
Proof.
  split; [reflexivity|].
  now rewrite !generate_concat, map_app, concat_app.
Qed.

(** X4. Generation reads only the source texts: two data loaders with the
    same source texts, batch for batch, give the same corpus whatever
    their target texts are. *)
Theorem generate_reads_only_source_text self (loader loader' : list Corpus) :
  map source_text loader = map source_text loader' ->
  T5.generate self loader = T5.generate self loader'.
Proof.
  intros Hsame. rewrite !generate_concat. f_equal.
  revert loader' Hsame.
  induction loader as [|batch_data rest IH]; intros [|batch_data' rest'] Hsame;
    simpl in *; try discriminate; [reflexivity|].
  injection Hsame as Hhead Htail.
  rewrite (IH _ Htail). f_equal.
  unfold T5.batch_decoded_text, T5.batch_decoded_sequence. now rewrite Hhead.
Qed.

End GenerationLoop.

(* ===================================================================== *)
(** ** Further properties: tokenization                                   *)
(* ===================================================================== *)

Section Tokenization.
Variable fl : TorchFloat.
Variable hub : Pretrained fl.
Context {unicode : Unicode}.
Implicit Type self : T5.t hub.

(** X5. When the tokenizer turns one string into a [1 x W] tensor of ids
    and of mask entries, [calculate_ids] on [n > 0] texts returns an [n x
    W] tensor of ids and an [n x W] attention mask, and row [k] of either
    is what the tokenizer returns for text [k] alone. *)
Theorem calculate_ids_one_row_per_text self (texts : list (list string)) (W : nat) :
  texts <> [] ->
  (forall s, has_shape 1 W
               (input_ids (call (T5.tokenizer self) (Single s)
                             (T5.tokenizer_kwargs self))) = true) ->
  (forall s, has_shape 1 W
               (attention_mask (call (T5.tokenizer self) (Single s)
                                  (T5.tokenizer_kwargs self))) = true) ->
  let '(ids, masks) := T5.calculate_ids self texts in
  has_shape (length texts) W ids = true /\
  has_shape (length texts) W masks = true /\
  map (fun row => [row]) ids =
    map (fun text =>
           input_ids (call (T5.tokenizer self)
                        (Single (T5.t5_task_text self ++ join " " text)%string)
                        (T5.tokenizer_kwargs self))) texts /\
  map (fun row => [row]) masks =
    map (fun text =>
           attention_mask (call (T5.tokenizer self)
                             (Single (T5.t5_task_text self ++ join " " text)%string)
                             (T5.tokenizer_kwargs self))) texts.
Proof.
  intros _ Hids Hmasks.
  pose proof (calculate_ids_fst self texts) as Hfst.
  pose proof (calculate_ids_snd self texts) as Hsnd.
  destruct (T5.calculate_ids self texts) as [ids masks]. simpl in Hfst, Hsnd.
  subst ids masks.
  destruct (@concat_single_rows _ _
              (fun text => input_ids (call (T5.tokenizer self)
                                        (Single (T5.sequence self text))
                                        (T5.tokenizer_kwargs self)))
              W texts (fun text => Hids _)) as [H1 H2].
  destruct (@concat_single_rows _ _
              (fun text => attention_mask (call (T5.tokenizer self)
                                             (Single (T5.sequence self text))
                                             (T5.tokenizer_kwargs self)))
              W texts (fun text => Hmasks _)) as [H3 H4].
  repeat split; assumption.
Qed.

End Tokenization.

(* ===================================================================== *)
(** ** Further properties: the loss                                       *)
(* ===================================================================== *)

Section LossFacts.
Variable fl : TorchFloat.
Variable hub : Pretrained fl.
Context {unicode : Unicode}.
Implicit Type self : T5.t hub.

(** X6. The shape conditions of the loss follow from the wrapped library:
    for a constructed model whose tokenizer turns one string into a [1 x
    W] tensor of ids and whose decoder returns one row of scores per
    decoder input position, [forward] on a batch of [n > 0] source texts
    and as many target texts returns the length-normalized loss of the [n
    x (W - 1)] scores against the shifted targets. *)
Theorem forward_on_shape_preserving_library
  (config : Config) (dataset : Dataset) self (corpus : Corpus) (W : nat) :
  T5.__init__ hub config dataset = Ok self ->
  source_text corpus <> [] ->
  length (source_text corpus) = length (target_text corpus) ->
  (forall s, has_shape 1 W
               (input_ids (call (T5.tokenizer self) (Single s)
                             (T5.tokenizer_kwargs self))) = true) ->
  (forall ids masks decoder_ids rows cols,
     has_shape rows cols decoder_ids = true ->
     length ids = rows ->
     has_shape rows cols
       (logits (model_call (T5.decoder self) ids masks decoder_ids false)) = true) ->
  let n := length (target_text corpus) in
  has_shape n W (T5.target_ids self corpus) = true /\
  has_shape n (W - 1) (T5.token_logits self corpus) = true /\
  T5.forward self corpus =
  Spec.length_normalized_loss fl (pad_token_id (T5.tokenizer self))
    (T5.token_logits self corpus)
    (T5.decoder_target_ids (T5.target_ids self corpus)).
Proof.
  intros Hinit _ Hsame Htok Hdec n.
  destruct (init_attributes _ _ Hinit) as [Hign Hpad].
  assert (Htargets : has_shape n W (T5.target_ids self corpus) = true).
  { unfold T5.target_ids. rewrite calculate_ids_fst.
    apply (@concat_single_rows _ _ _ W (target_text corpus) (fun text => Htok _)). }
  assert (Hsources : length (fst (T5.calculate_ids self (source_text corpus))) = n).
  { rewrite calculate_ids_fst.
    destruct (@concat_single_rows _ _
                (fun text => input_ids (call (T5.tokenizer self)
                                          (Single (T5.sequence self text))
                                          (T5.tokenizer_kwargs self)))
                W (source_text corpus) (fun text => Htok _)) as [Hshape _].
    apply has_shape_spec in Hshape. destruct Hshape as [Hlen _].
    unfold n. now rewrite <- Hsame. }
  assert (Hscores : has_shape n (W - 1) (T5.token_logits self corpus) = true).
  { rewrite token_logits_unfold. apply Hdec; [|assumption].
    now apply decoder_input_ids_shape. }
  split; [assumption|]. split; [assumption|].
  rewrite forward_unfold. cbv zeta.
  fold (T5.target_ids self corpus). rewrite <- token_logits_unfold.
  unfold T5.target_length. rewrite Hpad.
  apply loss_by_rows with (B := n) (C := (W - 1)%nat);
    [assumption | assumption | now apply decoder_target_ids_has_shape].
Qed.

End LossFacts.

Section LossInvariance.
Variable fl : TorchFloat.
Variable hub : Pretrained fl.
Context {unicode : Unicode}.
Implicit Type self : T5.t hub.

Lemma token_rows_agree (pad : Z) (row : tensor2 (F fl)) :
  forall (row' : tensor2 (F fl)) (targets : tensor1 Z),
    length row = length row' ->
    agree_off_padding pad row row' targets ->
    zip_with (fun x t => if (t =? pad)%Z then fzero fl else nll fl x t) row targets =
    zip_with (fun x t => if (t =? pad)%Z then fzero fl else nll fl x t) row' targets.
Proof.
  unfold agree_off_padding.
  induction row as [|x row IH]; intros [|x' row'] [|t targets] Hlen Hagree;
    simpl in *; try discriminate; try reflexivity.
  inversion Hagree as [|? ? Hhead Htail]; subst.
  rewrite (IH row' targets) by (try assumption; now injection Hlen).
  destruct (Z.eqb_spec t pad); [reflexivity|].
  now rewrite Hhead.
Qed.

Lemma sequence_losses_agree (pad : Z) (C : nat) (scores : tensor3 (F fl)) :
  forall (scores' : tensor3 (F fl)) (targets : tensor2 Z),
    length scores = length scores' ->
    Forall (fun row => length row = C) scores ->
    Forall (fun row => length row = C) scores' ->
    Forall (fun '(s, s', t) => agree_off_padding pad s s' t)
      (combine (combine scores scores') targets) ->
    zip_with (Spec.sequence_loss fl pad) scores targets =
    zip_with (Spec.sequence_loss fl pad) scores' targets.
Proof.
  induction scores as [|s scores IH];
    intros [|s' scores'] [|t targets] Hrows Hs Hs' Hagree;
    simpl in *; try discriminate; try reflexivity.
  inversion Hs as [|? ? Hlen Hrest]; inversion Hs' as [|? ? Hlen' Hrest'];
    inversion Hagree as [|? ? Hhead Htail]; subst.
  rewrite (IH scores' targets) by (try assumption; now injection Hrows).
  f_equal. unfold Spec.sequence_loss. f_equal. f_equal.
  apply token_rows_agree; congruence.
Qed.

(** X7. The loss does not depend on the scores at padding positions: if
    the decoder of a constructed model is replaced by one whose scores
    agree with the old ones wherever the shifted target is not the padding
    id, [forward] returns the same value. *)
Theorem forward_ignores_scores_at_padding
  (config : Config) (dataset : Dataset) self
  (decoder' : T5ForConditionalGeneration fl) (corpus : Corpus) (B L : nat) :
  let self' :=
    {| T5.base := T5.base self;
       T5.max_source_length := T5.max_source_length self;
       T5.max_target_length := T5.max_target_length self;
       T5.pretrained_model_path := T5.pretrained_model_path self;
       T5.tokenizer := T5.tokenizer self;
       T5.configuration := T5.configuration self;
       T5.decoder := decoder';
       T5.padding_token_idx := T5.padding_token_idx self;
       T5.loss := T5.loss self;
       T5.t5_task_text := T5.t5_task_text self |} in
  T5.__init__ hub config dataset = Ok self ->
  has_shape B L (T5.target_ids self corpus) = true ->
  has_shape B (L - 1) (T5.token_logits self corpus) = true ->
  has_shape B (L - 1) (T5.token_logits self' corpus) = true ->
  Forall (fun '(s, s', t) => agree_off_padding (T5.padding_token_idx self) s s' t)
    (combine (combine (T5.token_logits self corpus) (T5.token_logits self' corpus))
       (T5.decoder_target_ids (T5.target_ids self corpus))) ->
  T5.forward self corpus = T5.forward self' corpus.
Proof.
  intros self' Hinit Htargets Hscores Hscores' Hagree.
  destruct (init_attributes _ _ Hinit) as [Hign Hpad].
  assert (Hsame : T5.target_ids self' corpus = T5.target_ids self corpus)
    by reflexivity.
  rewrite (forward_unfold self), (forward_unfold self'). cbv zeta.
  fold (T5.target_ids self corpus). fold (T5.target_ids self' corpus).
  rewrite <- (token_logits_unfold self), <- (token_logits_unfold self'), Hsame.
  unfold T5.target_length.
  change (T5.loss self') with (T5.loss self).
  change (T5.padding_token_idx self') with (T5.padding_token_idx self).
  pose proof (@decoder_target_ids_has_shape _ _ _ Htargets) as Hshift.
  rewrite !loss_by_rows with (B := B) (C := (L - 1)%nat) (pad := T5.padding_token_idx self)
    by (assumption || congruence).
  unfold Spec.length_normalized_loss. f_equal.
  apply has_shape_spec in Hscores. apply has_shape_spec in Hscores'.
  destruct Hscores as [HB Hscores]. destruct Hscores' as [HB' Hscores'].
  apply sequence_losses_agree with (C := (L - 1)%nat);
    (assumption || congruence).
Qed.

(** X8. Besides the device its tensors are moved to, [forward] reads three
    configuration keys and nothing of the dataset: two models constructed
    from configurations that agree on the device, the task type, the source
    length and the model path return the same loss on every batch, whatever
    the datasets and the other keys are; when the target length agrees too
    they generate the same corpus. *)
Theorem forward_reads_three_config_keys
  (config config' : Config) (dataset dataset' : Dataset) self self' :
  T5.__init__ hub config dataset = Ok self ->
  T5.__init__ hub config' dataset' = Ok self' ->
  config "device" = config' "device" ->
  config "task_type" = config' "task_type" ->
  config "source_max_seq_length" = config' "source_max_seq_length" ->
  config "pretrained_model_path" = config' "pretrained_model_path" ->
  (forall corpus, T5.forward self corpus = T5.forward self' corpus) /\
  (config "target_max_seq_length" = config' "target_max_seq_length" ->
   forall loader, T5.generate self loader = T5.generate self' loader).
Proof.
  unfold T5.__init__. intros Hinit Hinit' _ Htask Hlen Hpath.
  rewrite <- Htask, <- Hlen, <- Hpath in Hinit'.
  destruct (pyval_eqb (config "task_type") (PyStr "summarization"));
    [|destruct (pyval_eqb (config "task_type") (PyStr "translation"))];
    simpl in Hinit, Hinit'; try discriminate;
    injection Hinit as <-; injection Hinit' as <-;
    (split; [reflexivity | intros <-; reflexivity]).
Qed.

(** X9. [forward] tokenizes the target texts exactly as the source texts:
    with the task prefix in front, and padded and truncated to
    [config['source_max_seq_length']]; [config['target_max_seq_length']]
    plays no part in it. *)
Theorem forward_tokenizes_targets_like_sources
  (config : Config) (dataset : Dataset) self (corpus : Corpus) :
  T5.__init__ hub config dataset = Ok self ->
  let tokenize (text : list string) :=
    input_ids
      (call (T5Tokenizer_from_pretrained hub (config "pretrained_model_path") true)
         (Single (T5.t5_task_text self ++ join " " text)%string)
         {| return_tensors := "pt";
            max_length := config "source_max_seq_length";
            padding := "max_length";
            truncation := true |}) in
  T5.target_ids self corpus = concat (map tokenize (target_text corpus)) /\
  fst (T5.calculate_ids self (source_text corpus)) =
    concat (map tokenize (source_text corpus)).
Proof.
  intros Hinit tokenize. unfold T5.target_ids. rewrite !calculate_ids_fst.
  unfold T5.__init__ in Hinit.
  destruct (pyval_eqb (config "task_type") (PyStr "summarization"));
    [|destruct (pyval_eqb (config "task_type") (PyStr "translation"))];
    simpl in Hinit; try discriminate; injection Hinit as <-;
    split; reflexivity.
Qed.

End LossInvariance.

Section Shifted.
Variable fl : TorchFloat.
Variable hub : Pretrained fl.
Context {unicode : Unicode}.
Implicit Type self : T5.t hub.

Lemma count_bounds (pad : Z) (row : list Z) :
  let n := length (filter (fun t => negb (t =? pad)%Z) row) in
  (n <= length row)%nat /\
  (n = length row <-> Forall (fun t => t <> pad) row) /\
  (n = 0%nat <-> Forall (fun t => t = pad) row).
Proof.
  induction row as [|t row [IHle [IHall IHnone]]]; simpl.
  - repeat split; constructor.
  - destruct (Z.eqb_spec t pad) as [Heq|Hne]; simpl in *.
    + split; [lia|]. split; split; intros H.
      * lia.
      * inversion H; contradiction.
      * constructor; [assumption | now apply IHnone].
      * inversion H; subst. now apply IHnone.
    + split; [lia|]. split; split; intros H.
      * constructor; [assumption|]. apply IHall. lia.
      * inversion H; subst. f_equal. now apply IHall.
      * discriminate.
      * inversion H; contradiction.
Qed.

(** X10. The divisor of a sequence is at most the length of its shifted
    target; it is that length exactly when no shifted id is the padding
    id, and zero exactly when every shifted id is. *)
Theorem target_length_bounds self (targets : tensor2 Z) :
  Forall2
    (fun row n =>
       (n <= length row)%nat /\
       (n = length row <-> Forall (fun t => t <> T5.padding_token_idx self) row) /\
       (n = 0%nat <-> Forall (fun t => t = T5.padding_token_idx self) row))
    targets (T5.target_length self targets).
Proof.
  unfold T5.target_length, sum_dim1_bool, ne. rewrite map_map.
  induction targets as [|row targets IH]; simpl; constructor; [|exact IH].
  rewrite count_true_ne. apply count_bounds.
Qed.

Lemma zip_with_map_r (A B C : Type) (f : A -> B -> C) (g : A -> B) (l : list A) :
  zip_with f l (map g l) = map (fun a => f a (g a)) l.
Proof.
  induction l as [|a l IH]; simpl; [reflexivity | now rewrite IH].
Qed.

(** X11. The two shifted views cover the targets and overlap: a target row
    is its first id followed by its loss targets, and its decoder inputs
    followed by its last id; the decoder inputs without their first id are
    the loss targets without their last. *)
Theorem shifted_views_cover_targets (target_ids : tensor2 Z) :
  zip_with (fun row shifted => firstn 1 row ++ shifted)
    target_ids (T5.decoder_target_ids target_ids) = target_ids /\
  zip_with (fun row shifted => shifted ++ skipn (length row - 1) row)
    target_ids (T5.decoder_input_ids target_ids) = target_ids /\
  slice_cols (Some 1%Z) None (T5.decoder_input_ids target_ids) =
  slice_cols None (Some (-1)%Z) (T5.decoder_target_ids target_ids).
Proof.
  unfold T5.decoder_target_ids, T5.decoder_input_ids, slice_cols.
  rewrite !zip_with_map_r, !map_map. repeat split.
  - rewrite <- (map_id target_ids) at 2. apply map_ext. intros row.
    rewrite slice_drop_first. apply firstn_skipn.
  - rewrite <- (map_id target_ids) at 2. apply map_ext. intros row.
    rewrite slice_drop_last. apply firstn_skipn.
  - apply map_ext. intros row.
    rewrite slice_drop_first, !slice_drop_last, slice_drop_first.
    now rewrite skipn_firstn_comm, length_skipn.
Qed.

(** X12. [forward] never looks at the attention mask of the targets: if the
    tokenizer is replaced by one that returns the same ids everywhere and
    the same attention mask on the source texts of the batch, the loss is
    the same. *)
Theorem forward_ignores_target_attention_mask self
  (tokenizer' : T5Tokenizer) (corpus : Corpus) :
  let self' :=
    {| T5.base := T5.base self;
       T5.max_source_length := T5.max_source_length self;
       T5.max_target_length := T5.max_target_length self;
       T5.pretrained_model_path := T5.pretrained_model_path self;
       T5.tokenizer := tokenizer';
       T5.configuration := T5.configuration self;
       T5.decoder := T5.decoder self;
       T5.padding_token_idx := T5.padding_token_idx self;
       T5.loss := T5.loss self;
       T5.t5_task_text := T5.t5_task_text self |} in
  (forall s,
     input_ids (call tokenizer' (Single s) (T5.tokenizer_kwargs self)) =
     input_ids (call (T5.tokenizer self) (Single s) (T5.tokenizer_kwargs self))) ->
  (forall text, In text (source_text corpus) ->
     attention_mask (call tokenizer' (Single (T5.sequence self text))
                       (T5.tokenizer_kwargs self)) =
     attention_mask (call (T5.tokenizer self) (Single (T5.sequence self text))
                       (T5.tokenizer_kwargs self))) ->
  T5.forward self corpus = T5.forward self' corpus.
Proof.
  intros self' Hids Hmasks.
  assert (Hfst : forall texts,
             fst (T5.calculate_ids self' texts) = fst (T5.calculate_ids self texts)).
  { intros texts. rewrite !calculate_ids_fst. f_equal.
    apply map_ext. intros text. apply Hids. }
  assert (Hsnd : snd (T5.calculate_ids self' (source_text corpus)) =
                 snd (T5.calculate_ids self (source_text corpus))).
  { rewrite !calculate_ids_snd. f_equal.
    apply map_ext_in. intros text Hin. now apply Hmasks. }
  rewrite (forward_unfold self), (forward_unfold self'). cbv zeta.
  now rewrite !Hfst, Hsnd.
Qed.

End Shifted.

(* ===================================================================== *)
(** ** Further properties: the remaining classes                          *)
(* ===================================================================== *)

(** X13. [AttributeGenerator.__init__] records one size per attribute of
    the dataset, in order, so [attribute_num] is the number of attributes
    and the length of [attribute_size]; a dataset without attributes gives
    the count 0. *)
Theorem attribute_generator_counts_attributes
  (config : Config) (dataset : AttributeDataset) :
  let self := AttributeGenerator.__init__ config dataset in
  AttributeGenerator.attribute_num self = length (idx2attribute dataset) /\
  length (AttributeGenerator.attribute_size self) =
    AttributeGenerator.attribute_num self /\
  (forall k,
     nth_error (AttributeGenerator.attribute_size self) k =
     option_map (fun a2t => length a2t) (nth_error (idx2attribute dataset) k)) /\
  (idx2attribute dataset = [] -> AttributeGenerator.attribute_num self = 0%nat) /\
  AttributeGenerator.vocab_size self = length (idx2token (dataset_of dataset)).
Proof.
  simpl. repeat split.
  - apply length_map.
  - intros k. apply nth_error_map.
  - intros ->. reflexivity.
Qed.

(* ===================================================================== *)
(** ** Further properties: generation end to end                          *)
(* ===================================================================== *)

Section CopyingModel.
Variable fl : TorchFloat.
Variable hub : Pretrained fl.
Context {unicode : Unicode}.
Implicit Type self : T5.t hub.

(** X15. With a tokenizer and decoder that hand a batch of strings back
    unchanged, a constructed model generates, for each source text, the
    lowercased words of the task prefix followed by the lowercased words
    of the text. *)
Theorem generate_with_copying_model
  (config : Config) (dataset : Dataset) self (batch_data : Corpus) :
  T5.__init__ hub config dataset = Ok self ->
  Forall (Forall is_word) (source_text batch_data) ->
  T5.batch_decoded_sequence self batch_data =
    T5.batch_sequences self (source_text batch_data) ->
  T5.generate self [batch_data] =
  map (fun text => map lower (split (T5.t5_task_text self) ++ text))
    (source_text batch_data).
Proof.
  intros Hinit Hwords Hcopy.
  rewrite generate_concat. simpl. rewrite app_nil_r.
  unfold T5.batch_decoded_text. rewrite Hcopy.
  unfold T5.batch_sequences. rewrite map_map.
  apply map_ext_in. intros text Hin.
  rewrite Forall_forall in Hwords.
  rewrite <- (@sequence_splits_into_prefix_and_words_aux _ _ _ _ _ _ Hinit (Hwords _ Hin)).
  apply lower_split.
Qed.

End CopyingModel.

(* ===================================================================== *)
(** ** The executable case data                                           *)
(* ===================================================================== *)

Section LatinCase.

Ltac by_bytes b :=
  destruct b as [b0 b1 b2 b3 b4 b5 b6 b7];
  destruct b0, b1, b2, b3, b4, b5, b6, b7.

Lemma lower_byte_continuation (flag : bool) (b : ascii) :
  is_continuation (Demo.lower_byte flag b) = is_continuation b.
Proof. destruct flag; by_bytes b; reflexivity. Qed.

(** The byte before plays no part for a byte that starts a character. *)
Lemma lower_byte_start (flag : bool) (b : ascii) :
  is_continuation b = false ->
  Demo.lower_byte flag b = Demo.lower_byte false b.
Proof. destruct flag; by_bytes b; intros H; first [reflexivity | discriminate H]. Qed.

(** A byte is left alone, or is a letter turned into a letter, or comes
    after the byte 195. *)
Lemma lower_byte_cases (flag : bool) (b : ascii) :
  Demo.lower_byte flag b = b \/
  (Demo.is_letter b = true /\ Demo.is_letter (Demo.lower_byte flag b) = true) \/
  flag = true.
Proof.
  destruct flag; [right; right; reflexivity|].
  by_bytes b; first [left; reflexivity | right; left; split; reflexivity].
Qed.

Lemma lower_from_start (flag : bool) (s : string) :
  starts_character s -> Demo.lower_from flag s = Demo.lower_from false s.
Proof.
  destruct s as [|b s]; intros Hs; simpl; [reflexivity|].
  now rewrite (lower_byte_start flag b Hs).
Qed.

Lemma lower_from_append (a : string) :
  forall flag b,
    Demo.lower_from flag (a ++ b) =
    (Demo.lower_from flag a ++ Demo.lower_from (Demo.carry flag a) b)%string.
Proof.
  induction a as [|x a IH]; intros flag b; simpl; [reflexivity|].
  now rewrite IH.
Qed.

Lemma carry_append (a : string) :
  forall flag b, Demo.carry flag (a ++ b) = Demo.carry (Demo.carry flag a) b.
Proof.
  induction a as [|x a IH]; intros flag b; simpl; [reflexivity | apply IH].
Qed.

Lemma latin_lower_append (a b : string) :
  starts_character b ->
  Demo.latin_lower (a ++ b) = (Demo.latin_lower a ++ Demo.latin_lower b)%string.
Proof.
  intros Hb. unfold Demo.latin_lower.
  now rewrite lower_from_append, (lower_from_start _ b Hb).
Qed.

(** The characters of the lowercased string are the lowercased
    characters. *)
Lemma characters_from_lower (s : string) :
  forall current flag,
    characters_from (Demo.lower_from flag current)
      (Demo.lower_from (Demo.carry flag current) s) =
    match characters_from current s with
    | [] => []
    | c :: cs => Demo.lower_from flag c :: map Demo.latin_lower cs
    end.
Proof.
  induction s as [|b s IH]; intros current flag; simpl.
  - destruct current; reflexivity.
  - rewrite lower_byte_continuation.
    destruct (is_continuation b) eqn:Hb.
    + specialize (IH (current ++ String b EmptyString)%string flag).
      rewrite lower_from_append, carry_append in IH. exact IH.
    + rewrite (lower_byte_start _ b Hb).
      pose proof (IH (String b EmptyString) false) as IHb. simpl in IHb.
      destruct current as [|x current].
      * simpl. pose proof (IH (String b EmptyString) flag) as IHf.
        simpl in IHf. rewrite (lower_byte_start flag b Hb) in IHf. exact IHf.
      * simpl. f_equal. rewrite IHb.
        destruct (characters_from (String b EmptyString) s); reflexivity.
Qed.

Lemma characters_latin_lower (s : string) :
  characters (Demo.latin_lower s) = map Demo.latin_lower (characters s).
Proof.
  unfold characters, Demo.latin_lower.
  pose proof (characters_from_lower s EmptyString false) as H. simpl in H.
  rewrite H. destruct (characters_from EmptyString s); reflexivity.
Qed.

(** Against a string without letters and without the byte 195,
    lowercasing changes no comparison. *)
Lemma eqb_lower_from (c : string) :
  forall ws,
    forallb (fun b => negb (Demo.is_letter b) && negb (Demo.is_195 b)) (bytes ws) = true ->
    String.eqb (Demo.lower_from false c) ws = String.eqb c ws.
Proof.
  induction c as [|x c IH]; intros [|y ws] Hws; simpl; try reflexivity.
  simpl in Hws. apply andb_true_iff in Hws. destruct Hws as [Hy Hws].
  apply andb_true_iff in Hy. destruct Hy as [Hletter H195].
  destruct (lower_byte_cases false x) as [->|[[Hx Hx']|Hflag]];
    [ | | discriminate Hflag].
  - destruct (Ascii.eqb_spec x y) as [->|_]; [|reflexivity].
    destruct (Demo.is_195 y) eqn:Hy195; [discriminate H195|].
    now apply IH.
  - destruct (Ascii.eqb_spec (Demo.lower_byte false x) y) as [<-|_];
      [now rewrite Hx' in Hletter|].
    destruct (Ascii.eqb_spec x y) as [<-|_];
      [now rewrite Hx in Hletter | reflexivity].
Qed.

Lemma isspace_latin_lower (c : string) :
  isspace (Demo.latin_lower c) = isspace c.
Proof.
  unfold isspace, Demo.latin_lower.
  assert (Hws : forallb
                  (fun ws =>
                     forallb (fun b => negb (Demo.is_letter b) && negb (Demo.is_195 b))
                       (bytes ws))
                  whitespace = true) by reflexivity.
  induction whitespace as [|ws rest IH]; [reflexivity|].
  simpl in Hws. apply andb_true_iff in Hws. destruct Hws as [Hhead Hrest].
  simpl. now rewrite eqb_lower_from, IH.
Qed.

Lemma split_from_latin_lower (cs : list string) :
  forall word,
    Forall starts_character (tl cs) ->
    (word <> EmptyString -> Forall starts_character cs) ->
    split_from (Demo.latin_lower word) (map Demo.latin_lower cs) =
    map Demo.latin_lower (split_from word cs).
Proof.
  induction cs as [|c cs IH]; intros word Htail Hword; simpl.
  - destruct word; reflexivity.
  - simpl in Htail.
    assert (Hnext : Forall starts_character (tl cs))
      by (destruct cs; [constructor | now inversion Htail]).
    rewrite isspace_latin_lower. destruct (isspace c).
    + assert (Hrest : split_from (Demo.latin_lower EmptyString) (map Demo.latin_lower cs) =
                      map Demo.latin_lower (split_from EmptyString cs))
        by (apply IH; [assumption | intros H; now elim H]).
      destruct word; simpl; [exact Hrest|]. f_equal. exact Hrest.
    + destruct word as [|x word].
      * simpl. apply IH; [assumption | intros _; assumption].
      * assert (Hc : Forall starts_character (c :: cs)) by (apply Hword; discriminate).
        inversion Hc as [|? ? Hstart _]; subst.
        rewrite <- IH; [|assumption | intros _; assumption].
        now rewrite latin_lower_append.
Qed.

Lemma latin_lower_split (s : string) :
  split (Demo.latin_lower s) = map Demo.latin_lower (split s).
Proof.
  unfold split. rewrite characters_latin_lower.
  apply (@split_from_latin_lower (characters s) EmptyString).
  - apply characters_from_tail.
  - intros H. now elim H.
Qed.

End LatinCase.

(** The case data the runs below use. *)
#[global] Instance latin_case : Unicode :=
  {| lower := Demo.latin_lower;
     uppercase := Demo.is_uppercase;
     lower_split := latin_lower_split |}.

(* ===================================================================== *)
(** ** Concrete runs                                                      *)
(* ===================================================================== *)

Example split_run : split (lower "  The  QUICK brown Fox ") = ["the"; "quick"; "brown"; "fox"].
Proof. reflexivity. Qed.

Example slice_runs :
  slice None (Some (-1)%Z) [1; 2; 3; 4]%Z = [1; 2; 3]%Z /\
  slice (Some 1%Z) None [1; 2; 3; 4]%Z = [2; 3; 4]%Z /\
  slice None (Some (-1)%Z) (@nil Z) = [] /\
  slice (Some 1%Z) None (@nil Z) = [].
Proof. repeat split. Qed.

Example init_runs :
  T5.__init__ Demo.hub (Demo.config (PyStr "summarization") 16) Demo.vocab =
    Ok (Demo.model "summarize: " 16) /\
  T5.__init__ Demo.hub (Demo.config (PyStr "translation") 16) Demo.vocab =
    Ok (Demo.model "translate German to English: " 16) /\
  T5.__init__ Demo.hub (Demo.config (PyStr "dialogue") 16) Demo.vocab =
    Raise (NotImplementedError
             (Some "Only summarization and translation are supported.")) /\
  T5.__init__ Demo.hub (Demo.config PyNone 16) Demo.vocab =
    Raise (NotImplementedError
             (Some "Only summarization and translation are supported.")).
Proof. repeat split. Qed.

Example base_init_runs :
  Seq2SeqGenerator.vocab_size
    (Seq2SeqGenerator.__init__ (Demo.config PyNone 16) Demo.shared_vocab) = Some 3%nat /\
  Seq2SeqGenerator.source_vocab_size
    (Seq2SeqGenerator.__init__ (Demo.config PyNone 16) Demo.vocab) = Some 4%nat /\
  Seq2SeqGenerator.target_vocab_size
    (Seq2SeqGenerator.__init__ (Demo.config PyNone 16) Demo.vocab) = Some 5%nat.
Proof. repeat split. Qed.

Example generate_run :
  T5.generate (Demo.model "summarize: " 24) [Demo.batch; Demo.batch] =
  [["summarize:"; "ein"; "haus"]; ["summarize:"; "hallo"];
   ["summarize:"; "ein"; "haus"]; ["summarize:"; "hallo"]].
Proof. reflexivity. Qed.

Example calculate_ids_run :
  fst (T5.calculate_ids (Demo.model "s: " 8) (target_text Demo.batch)) =
  [[118; 61; 35; 100; 1; 0; 0; 0]; [118; 61; 35; 101; 35; 102; 1; 0]]%Z.
Proof. reflexivity. Qed.

Example forward_run :
  T5.target_length (Demo.model "summarize: " 16)
    (T5.decoder_target_ids (T5.target_ids (Demo.model "summarize: " 16) Demo.batch)) =
    [12%nat; 14%nat] /\
  T5.forward (Demo.model "summarize: " 16) Demo.batch = Demo.Fin (295 # 168).
Proof. split; vm_compute; reflexivity. Qed.

(* ===================================================================== *)
(** ** The statements at the executable instances                         *)
(* ===================================================================== *)

Section DemoFacts.

Lemma demo_tokenizer_rows (ss : list string) (kw : kwargs) :
  length (input_ids (call Demo.tok (Batch ss) kw)) = length ss.
Proof. simpl. now rewrite !length_map. Qed.

Lemma demo_generate_rows (ids : tensor2 Z) (max_len : pyval) (early : bool) :
  length (model_generate Demo.echo ids max_len early) = length ids.
Proof. simpl. unfold Demo.echo_generate. apply length_map. Qed.

Lemma demo_decode_rows (sequences : tensor2 Z) (skip : bool) :
  length (batch_decode Demo.tok sequences skip) = length sequences.
Proof. simpl. apply length_map. Qed.

Lemma demo_tokenizer_batch (ss : list string) (kw : kwargs) :
  input_ids (call Demo.tok (Batch ss) kw) =
  concat (map (fun s => input_ids (call Demo.tok (Single s) kw)) ss).
Proof.
  simpl. induction ss as [|s ss IH]; simpl; [reflexivity | now rewrite IH].
Qed.

End DemoFacts.

Lemma forward_length_normalized_witness :
  T5.forward (Demo.model "summarize: " 8) Demo.batch =
  Spec.length_normalized_loss Demo.xfl 0
    (T5.token_logits (Demo.model "summarize: " 8) Demo.batch)
    (T5.decoder_target_ids (T5.target_ids (Demo.model "summarize: " 8) Demo.batch)).
Proof.
  apply (@forward_length_normalized Demo.xfl Demo.hub
           (Demo.config (PyStr "summarization") 8) Demo.vocab
           (Demo.model "summarize: " 8) Demo.batch 2 8); reflexivity.
Defined.

Lemma forward_shifts_targets_by_one_witness :
  T5.decoder_input_ids (T5.target_ids (Demo.model "summarize: " 8) Demo.batch) =
    map (firstn 7) (T5.target_ids (Demo.model "summarize: " 8) Demo.batch) /\
  T5.decoder_target_ids (T5.target_ids (Demo.model "summarize: " 8) Demo.batch) =
    map (skipn 1) (T5.target_ids (Demo.model "summarize: " 8) Demo.batch).
Proof.
  assert (Hrows : Forall (fun row => length row = 8%nat)
                    (T5.target_ids (Demo.model "summarize: " 8) Demo.batch))
    by (repeat constructor).
  destruct (@forward_shifts_targets_by_one Demo.xfl Demo.hub
              (Demo.model "summarize: " 8) Demo.batch 8 Hrows)
    as [Hin [Htgt _]].
  split; [exact Hin | exact Htgt].
Defined.


Lemma generate_one_entry_per_source_text_witness :
  length (T5.generate (Demo.model "summarize: " 24) [Demo.batch; Demo.batch]) =
  length (concat (map source_text [Demo.batch; Demo.batch])).
Proof.
  apply (@generate_one_entry_per_source_text Demo.xfl Demo.hub latin_case
           (Demo.model "summarize: " 24) [Demo.batch; Demo.batch]
           demo_tokenizer_rows demo_generate_rows demo_decode_rows).
Defined.

Lemma generate_and_calculate_ids_tokenize_alike_witness :
  T5.batch_encoded_sequence (Demo.model "summarize: " 24) (source_text Demo.batch) =
  fst (T5.calculate_ids (Demo.model "summarize: " 24) (source_text Demo.batch)).
Proof.
  apply (@generate_and_calculate_ids_tokenize_alike Demo.xfl Demo.hub latin_case
           (Demo.model "summarize: " 24) (source_text Demo.batch)
           (fun ss kw _ => demo_tokenizer_batch ss kw)).
Defined.

(* ===================================================================== *)
(** ** The further properties at the executable instances                 *)
(* ===================================================================== *)

Section MoreDemoFacts.

Lemma demo_encode_width (W : nat) (s : string) :
  length (fst (Demo.encode W s)) = W /\ length (snd (Demo.encode W s)) = W.
Proof.
  unfold Demo.encode. simpl fst. simpl snd.
  set (ids := firstn (W - 1) (map Demo.char_id (bytes s)) ++ firstn W [Demo.eos_id]).
  assert (Hle : (length ids <= W)%nat).
  { unfold ids. rewrite length_app, !length_firstn. simpl length. lia. }
  rewrite !length_app, !repeat_length. lia.
Qed.

Lemma demo_tokenizer_shape (W : Z) (s : string) (kw : kwargs) :
  max_length kw = PyInt W ->
  has_shape 1 (Z.to_nat W) (input_ids (call Demo.tok (Single s) kw)) = true /\
  has_shape 1 (Z.to_nat W) (attention_mask (call Demo.tok (Single s) kw)) = true.
Proof.
  intros Hkw.
  change (input_ids (call Demo.tok (Single s) kw))
    with [fst (Demo.encode (Demo.width_of (max_length kw)) s)].
  change (attention_mask (call Demo.tok (Single s) kw))
    with [snd (Demo.encode (Demo.width_of (max_length kw)) s)].
  rewrite Hkw. change (Demo.width_of (PyInt W)) with (Z.to_nat W).
  destruct (demo_encode_width (Z.to_nat W) s) as [Hids Hmask].
  unfold has_shape. cbn [length forallb Nat.eqb andb].
  now rewrite Hids, Hmask, Nat.eqb_refl.
Qed.

Lemma demo_decoder_shape (ids masks decoder_ids : tensor2 Z) (rows cols : nat) :
  has_shape rows cols decoder_ids = true ->
  length ids = rows ->
  has_shape rows cols
    (logits (model_call Demo.echo ids masks decoder_ids false)) = true.
Proof.
  intros Hshape _. simpl. apply has_shape_spec in Hshape.
  destruct Hshape as [Hrows Hcols]. apply has_shape_spec. split.
  - now rewrite length_map.
  - apply Forall_map. revert Hcols. apply Forall_impl.
    intros row <-. apply length_map.
Qed.

End MoreDemoFacts.

(** Closes a goal [Forall P l] on a list that computes, each [P x] being an
    implication from [t <> pad] to an equation. *)
Ltac off_padding :=
  repeat first
    [ apply Forall_nil
    | apply Forall_cons
    | let H := fresh in
      intros H; first [reflexivity | exfalso; apply H; reflexivity] ].

Lemma generate_with_copying_model_witness :
  T5.generate (Demo.model "summarize: " 64) [Demo.batch] =
  [["summarize:"; "ein"; "haus"]; ["summarize:"; "hallo"]].
Proof.
  apply (@generate_with_copying_model Demo.xfl Demo.hub latin_case
           (Demo.config (PyStr "summarization") 64) Demo.vocab
           (Demo.model "summarize: " 64) Demo.batch).
  - reflexivity.
  - repeat constructor; discriminate.
  - reflexivity.
Defined.

Lemma split_join_round_trip_witness :
  split (join " " ["Ein"; "Haus"]) = ["Ein"; "Haus"] /\
  split (lower (join " " ["Ein"; "Haus"])) = ["ein"; "haus"].
Proof.
  apply (@split_join_round_trip latin_case ["Ein"; "Haus"]).
  repeat constructor; discriminate.
Defined.

Lemma sequence_splits_into_prefix_and_words_witness :
  split (T5.sequence (Demo.model "translate German to English: " 16) ["Ein"; "Haus"]) =
  ["translate"; "German"; "to"; "English:"; "Ein"; "Haus"].
Proof.
  apply (@sequence_splits_into_prefix_and_words Demo.xfl Demo.hub
           (Demo.config (PyStr "translation") 16) Demo.vocab
           (Demo.model "translate German to English: " 16) ["Ein"; "Haus"]).
  - reflexivity.
  - repeat constructor; discriminate.
Defined.

Lemma generate_reads_only_source_text_witness :
  T5.generate (Demo.model "summarize: " 24) [Demo.batch] =
  T5.generate (Demo.model "summarize: " 24)
    [{| source_text := source_text Demo.batch; target_text := [] |}].
Proof.
  apply generate_reads_only_source_text. reflexivity.
Defined.

Lemma calculate_ids_one_row_per_text_witness :
  has_shape 2 8
    (fst (T5.calculate_ids (Demo.model "summarize: " 8) (source_text Demo.batch))) = true /\
  has_shape 2 8
    (snd (T5.calculate_ids (Demo.model "summarize: " 8) (source_text Demo.batch))) = true.
Proof.
  assert (Hne : source_text Demo.batch <> []) by discriminate.
  pose proof (@calculate_ids_one_row_per_text Demo.xfl Demo.hub
                (Demo.model "summarize: " 8) (source_text Demo.batch) 8 Hne
                (fun s => proj1 (@demo_tokenizer_shape 8 s
                                   (T5.tokenizer_kwargs (Demo.model "summarize: " 8)) eq_refl))
                (fun s => proj2 (@demo_tokenizer_shape 8 s
                                   (T5.tokenizer_kwargs (Demo.model "summarize: " 8)) eq_refl))) as H.
  destruct (T5.calculate_ids (Demo.model "summarize: " 8) (source_text Demo.batch))
    as [ids masks].
  destruct H as [Hids [Hmasks _]]. split; assumption.
Defined.

Lemma forward_on_shape_preserving_library_witness :
  T5.forward (Demo.model "summarize: " 16) Demo.batch =
  Spec.length_normalized_loss Demo.xfl 0
    (T5.token_logits (Demo.model "summarize: " 16) Demo.batch)
    (T5.decoder_target_ids (T5.target_ids (Demo.model "summarize: " 16) Demo.batch)).
Proof.
  assert (Hne : source_text Demo.batch <> []) by discriminate.
  apply (@forward_on_shape_preserving_library Demo.xfl Demo.hub
           (Demo.config (PyStr "summarization") 16) Demo.vocab
           (Demo.model "summarize: " 16) Demo.batch 16 eq_refl Hne eq_refl
           (fun s => proj1 (@demo_tokenizer_shape 16 s
                              (T5.tokenizer_kwargs (Demo.model "summarize: " 16)) eq_refl))
           demo_decoder_shape).
Defined.

Lemma forward_ignores_scores_at_padding_witness :
  T5.forward (Demo.model "summarize: " 16) Demo.batch =
  T5.forward (Alt.model Demo.tok Alt.eager "summarize: " 16) Demo.batch.
Proof.
  apply (@forward_ignores_scores_at_padding Demo.xfl Demo.hub
           (Demo.config (PyStr "summarization") 16) Demo.vocab
           (Demo.model "summarize: " 16) Alt.eager Demo.batch 2 16);
    try reflexivity.
  vm_compute. off_padding.
Defined.

Lemma forward_reads_three_config_keys_witness :
  T5.forward (Demo.model "summarize: " 16) Demo.batch =
  T5.forward
    (@T5.Build_t Demo.xfl Demo.hub
       (Seq2SeqGenerator.__init__ (Alt.config PyNone 16) Demo.shared_vocab)
       (PyInt 16) (PyInt 7) (PyStr "t5-small") Demo.tok tt Demo.echo Demo.pad_id
       {| ignore_index := Demo.pad_id; reduction := "none" |} "summarize: ")
    Demo.batch.
Proof.
  apply (@forward_reads_three_config_keys Demo.xfl Demo.hub latin_case
           (Demo.config (PyStr "summarization") 16)
           (Alt.config (PyStr "summarization") 16)
           Demo.vocab Demo.shared_vocab); reflexivity.
Defined.

Lemma forward_tokenizes_targets_like_sources_witness :
  T5.target_ids (Demo.model "summarize: " 16) Demo.batch =
  concat
    (map (fun text =>
            input_ids
              (call Demo.tok (Single ("summarize: " ++ join " " text)%string)
                 {| return_tensors := "pt"; max_length := PyInt 16;
                    padding := "max_length"; truncation := true |}))
       (target_text Demo.batch)).
Proof.
  apply (@forward_tokenizes_targets_like_sources Demo.xfl Demo.hub
           (Demo.config (PyStr "summarization") 16) Demo.vocab
           (Demo.model "summarize: " 16) Demo.batch eq_refl).
Defined.

Lemma forward_ignores_target_attention_mask_witness :
  T5.forward (Demo.model "summarize: " 16) Demo.batch =
  T5.forward (Alt.model Alt.unmasked Demo.echo "summarize: " 16) Demo.batch.
Proof.
  apply (@forward_ignores_target_attention_mask Demo.xfl Demo.hub
           (Demo.model "summarize: " 16) Alt.unmasked Demo.batch).
  - intros s. reflexivity.
  - intros text [<-|[<-|[]]]; reflexivity.
Defined.
